(** * Late-clone template configuration: save, fetch, remove

    A shallow embedding of [cmd/containerd-shim-runhcs-v1/clone.go]
    (the [saveAsTemplate] workflow of package [main]) and of package
    [clone] (the template-config codec wrappers and the registry-backed
    persistence of template configurations), with the properties of the
    design document stated and proved over it.

    Layout:
    - [GoErr]    : Go [error] values, [fmt.Errorf] with the [%s] verb;
    - [gob]      : the wire format of a template configuration;
    - [regstate] : the keyed registry store and its handles;
    - [clone]    : package [clone], function by function;
    - [shim]     : package [main], the [saveAsTemplate] workflow;
    - [gob_facts], [world_facts] : lemmas about the wire format and about
      the persistence wrappers;
    - then the properties of the codec, of the template lifecycle and of
      the workflow. *)

From Stdlib Require Import NArith Lia.
From Stdlib Require Import Strings.String Strings.Ascii Strings.Byte.
From stdpp Require Import base option list strings gmap fin_maps.

Local Open Scope string_scope.
Local Open Scope list_scope.

(** [[]byte] *)
Abbreviation bytes := (list byte).

#[global] Instance byte_eq_dec : EqDecision byte := Byte.byte_eq_dec.

(* ===================================================================== *)
(** ** Go error values *)
(* ===================================================================== *)

Module GoErr.

(** The dynamic value held by a non-nil [error].

    Modelled from the spec: [regstate.NotFoundError] is declared in
    package [regstate], which is not part of the sources at hand; the
    design document fixes that the store reports a missing record by a
    distinguished [NotFound] condition that names the missing id.  Every
    other error type that a collaborator can return is [opaqueError]: a
    type name and the text its [Error()] method renders. *)
Inductive errval : Type :=
  | NotFoundError (Id : string)
  | errorString (s : string)
  | opaqueError (typ : string) (msg : string).

(** A Go [error] is an interface value: [nil] or a dynamic value. *)
Abbreviation error := (option errval).
Abbreviation nil := (@None errval).

#[global] Instance errval_eq_dec : EqDecision errval.
Proof. solve_decision. Defined.

(** [err.Error()].

    Modelled from the spec: the text of a [NotFoundError] is produced by
    package [regstate]; only the fact that it is some rendering of the id
    is used below. *)
Definition Error (e : errval) : string :=
  match e with
  | NotFoundError id => "ID '" ++ id ++ "' was not found"
  | errorString s => s
  | opaqueError _ msg => msg
  end.

(** Modelled from the spec: [regstate.IsNotFoundError], a type test on
    the dynamic value ("the NotFound condition"); [nil] is not one. *)
Definition IsNotFoundError (err : error) : bool :=
  match err with
  | Some (NotFoundError _) => true
  | _ => false
  end.

(** What the [%s] verb of package [fmt] prints for an [error] operand:
    the result of [Error()], or the bad-verb rendering of a nil
    interface. *)
Definition fmt_s (err : error) : string :=
  match err with
  | Some e => Error e
  | None => "%!s(<nil>)"
  end.

(** [fmt.Errorf(format, ...)] for a format without [%w]: the result is a
    plain string error holding the formatted text. *)
Definition Errorf (text : string) : errval := errorString text.

End GoErr.
Export GoErr.

(* ===================================================================== *)
(** ** Template configurations and their wire format *)
(* ===================================================================== *)

Module uvm.

(** Modelled from the spec: the resource descriptor types live in package
    [uvm], which is not part of the sources at hand.  The design document
    treats a descriptor as an opaque serialisable value of one concrete
    kind; a value of the interface type [Cloneable] is therefore kept as
    the name of its concrete type together with its serialised fields. *)
Record Cloneable : Type := mkCloneable {
  typeName : string;
  fields : bytes
}.

(** Modelled from the spec: [uvm.UVMTemplateConfig], "templateID" and the
    ordered sequence of resource descriptors. *)
Record UVMTemplateConfig : Type := mkUVMTemplateConfig {
  UVMID : string;
  Resources : list Cloneable
}.

#[global] Instance Cloneable_eq_dec : EqDecision Cloneable.
Proof. solve_decision. Defined.

#[global] Instance UVMTemplateConfig_eq_dec : EqDecision UVMTemplateConfig.
Proof. solve_decision. Defined.

(** The two concrete types that [init] registers, by the names under
    which [gob.Register] files a pointer to a named struct. *)
Definition VSMBShare_ptr : string := "*uvm.VSMBShare".
Definition SCSIMount_ptr : string := "*uvm.SCSIMount".

(** The zero value [var utc uvm.UVMTemplateConfig]. *)
Definition zero : UVMTemplateConfig :=
  {| UVMID := ""; Resources := [] |}.

End uvm.
Export uvm.

Module gob.

(** *** Unsigned integers: base-128, low group first, high bit = "more" *)

Definition byte_of_N (n : N) : byte :=
  match Byte.of_N n with
  | Some b => b
  | None => "000"%byte
  end.

Fixpoint put_uvarint_fuel (fuel : nat) (n : N) : bytes :=
  match fuel with
  | O => [byte_of_N (n mod 128)]
  | S fuel' =>
      if (n <? 128)%N then [byte_of_N n]
      else byte_of_N (128 + n mod 128) :: put_uvarint_fuel fuel' (n / 128)
  end.

Definition put_uvarint (n : N) : bytes :=
  put_uvarint_fuel (N.to_nat (N.size n)) n.

Fixpoint get_uvarint (bs : bytes) : option (N * bytes) :=
  match bs with
  | [] => None
  | b :: rest =>
      let v := Byte.to_N b in
      if (v <? 128)%N then Some (v, rest)
      else match get_uvarint rest with
           | Some (hi, rest') => Some ((v - 128) + 128 * hi, rest')%N
           | None => None
           end
  end.

(** *** Length-prefixed byte strings *)

Definition put_bytes (b : bytes) : bytes :=
  put_uvarint (N.of_nat (length b)) ++ b.

Definition get_bytes (bs : bytes) : option (bytes * bytes) :=
  match get_uvarint bs with
  | None => None
  | Some (n, rest) =>
      if (N.of_nat (length rest) <? n)%N then None
      else Some (take (N.to_nat n) rest, drop (N.to_nat n) rest)
  end.

Definition put_string (s : string) : bytes :=
  put_bytes (list_byte_of_string s).

Definition get_string (bs : bytes) : option (string * bytes) :=
  match get_bytes bs with
  | None => None
  | Some (b, rest) => Some (string_of_list_byte b, rest)
  end.

(** *** The type registry *)

(** [gob.Register(value)]: files the concrete type of [value] under its
    name in the process-wide registry. *)
Definition Register (name : string) (registry : list string) : list string :=
  name :: registry.

Definition is_registered (registry : list string) (name : string) : bool :=
  bool_decide (name ∈ registry).

(** *** Interface values and configurations *)

(** Modelled from the spec: an interface value is sent as its concrete
    type's registered name (the discriminant, written first) followed by
    the serialised fields. *)
Definition put_resource (r : Cloneable) : bytes :=
  put_string (typeName r) ++ put_bytes (fields r).

Definition put_config (utc : UVMTemplateConfig) : bytes :=
  put_string (UVMID utc)
  ++ put_uvarint (N.of_nat (length (Resources utc)))
  ++ concat (map put_resource (Resources utc)).

Definition errUnexpectedEOF : errval := errorString "unexpected EOF".

Definition errTypeNotRegistered (name : string) : errval :=
  errorString ("gob: type not registered for interface: " ++ name).

Definition errNameNotRegistered (name : string) : errval :=
  errorString ("gob: name not registered for interface: " ++ name).

Definition get_resource (registry : list string) (bs : bytes)
  : (Cloneable * bytes) + errval :=
  match get_string bs with
  | None => inr errUnexpectedEOF
  | Some (name, rest) =>
      if is_registered registry name then
        match get_bytes rest with
        | None => inr errUnexpectedEOF
        | Some (f, rest') => inl ({| typeName := name; fields := f |}, rest')
        end
      else inr (errNameNotRegistered name)
  end.

(** Reads [n] interface values; on failure the values read so far are
    what has been stored into the destination. *)
Fixpoint get_resources (registry : list string) (n : nat) (bs : bytes)
  : list Cloneable * error :=
  match n with
  | O => ([], nil)
  | S n' =>
      match get_resource registry bs with
      | inr e => ([], Some e)
      | inl (r, rest) =>
          let '(rs, err) := get_resources registry n' rest in
          (r :: rs, err)
      end
  end.

(** Modelled from the spec: [Encoder.Encode(utc)].  The encoder refuses a
    value whose concrete type has not been registered; otherwise it
    produces the wire form. *)
Definition Encode (registry : list string) (utc : UVMTemplateConfig)
  : bytes * error :=
  match List.find (fun r => negb (is_registered registry (typeName r)))
                  (Resources utc) with
  | Some r => ([], Some (errTypeNotRegistered (typeName r)))
  | None => (put_config utc, nil)
  end.

(** Modelled from the spec: [Decoder.Decode(&utc)].  The destination is
    filled in field by field, so that after a failure it holds whatever
    had been decoded before the failing point. *)
Definition Decode (registry : list string) (bs : bytes)
  (utc : UVMTemplateConfig) : UVMTemplateConfig * error :=
  match get_string bs with
  | None => (utc, Some errUnexpectedEOF)
  | Some (id, bs1) =>
      match get_uvarint bs1 with
      | None => ({| UVMID := id; Resources := Resources utc |},
                 Some errUnexpectedEOF)
      | Some (n, bs2) =>
          let '(rs, err) := get_resources registry (N.to_nat n) bs2 in
          ({| UVMID := id; Resources := rs |}, err)
      end
  end.

End gob.

(* ===================================================================== *)
(** ** The world outside the two packages *)
(* ===================================================================== *)

(** Every call that leaves the two packages is recorded, with its
    outcome, in the order in which it is made. *)
Inductive Event : Type :=
  | EvOpen (root : string) (err : error)
  | EvGet (root id key : string) (err : error)
  | EvCreate (root id key : string) (state : bytes) (err : error)
  | EvRemove (root id : string) (err : error)
  | EvClose (root : string)
  | EvGobEncode (err : error)
  | EvGobDecode (err : error)
  | EvRemoveAllNICs (err : error)
  | EvCloseGCSConnection (err : error)
  | EvGenerateTemplateConfig (err : error)
  | EvSaveAsTemplate (err : error).

(** The registry ([root ↦ id ↦ key ↦ value]), the failures that the
    underlying store is going to report (one entry per fallible store
    call, [nil] meaning that the call goes through; an exhausted list
    means no more failures), and the calls made so far. *)
Record World : Type := mkWorld {
  registry : gmap string (gmap string (gmap string bytes));
  faults : list error;
  trace : list Event
}.

(** Computations over the world. *)
Definition M (A : Type) : Type := World -> A * World.

Definition ret {A : Type} (a : A) : M A := fun w => (a, w).

Definition bind {A B : Type} (m : M A) (k : A -> M B) : M B :=
  fun w => let '(a, w') := m w in k a w'.

Notation "x <- m ;; k" := (bind m (fun x => k))
  (at level 100, m at next level, right associativity).
Notation "'do' ( a , b ) <- m ;; k" := (bind m (fun '(a, b) => k))
  (at level 100, a name, b name, m at next level, right associativity).

(** [defer cleanup; body]: the deferred call runs when the body returns,
    on every path, and does not change what is returned. *)
Definition defer {A : Type} (cleanup : M unit) (body : M A) : M A :=
  a <- body ;; _ <- cleanup ;; ret a.

Definition emit (e : Event) : M unit :=
  fun w => (tt, {| registry := registry w; faults := faults w;
                   trace := trace w ++ [e] |}).

(** The outcome that the underlying store has in stock for the next
    fallible call. *)
Definition next_fault : M error :=
  fun w => match faults w with
           | [] => (nil, w)
           | f :: fs => (f, {| registry := registry w; faults := fs;
                               trace := trace w |})
           end.

Definition get_registry : M (gmap string (gmap string (gmap string bytes))) :=
  fun w => (registry w, w).

Definition put_registry (r : gmap string (gmap string (gmap string bytes)))
  : M unit :=
  fun w => (tt, {| registry := r; faults := faults w; trace := trace w |}).

(** The record kept for [id] under [root], key by key. *)
Definition record_of (r : gmap string (gmap string (gmap string bytes)))
  (root id : string) : option (gmap string bytes) :=
  (r !!! root) !! id.

(** The value stored at [(root, id, key)]. *)
Definition stored (w : World) (root id key : string) : option bytes :=
  match record_of (registry w) root id with
  | Some rec => rec !! key
  | None => None
  end.

(** No failure of the underlying store is pending for the next [n]
    fallible store calls. *)
Definition calm (n : nat) (w : World) : Prop :=
  Forall (fun f => f = nil) (take n (faults w)).

(* ===================================================================== *)
(** ** Package regstate *)
(* ===================================================================== *)

Module regstate.

(** Modelled from the spec: package [regstate] is not part of the sources
    at hand.  The design document gives its interface: [Open(namespace)]
    yields a handle; [Create(id, field, bytes)] fails if the key exists;
    [Get(id, field)] yields the bytes or [NotFound]; [Remove(id)] yields
    success or [NotFound]; [Close()]; and any call may fail for a reason
    of the underlying store. *)
Record Key : Type := mkKey { root : string }.

Definition errAlreadyExists : errval :=
  errorString "container already exists".

(** Modelled from the spec: [Open(root, perVM)]. *)
Definition Open (name : string) (perVM : bool) : M (Key + errval) :=
  f <- next_fault ;;
  _ <- emit (EvOpen name f) ;;
  match f with
  | Some e => ret (inr e)
  | None => ret (inl {| root := name |})
  end.

(** Modelled from the spec: [Key.Close()]. *)
Definition Close (k : Key) : M unit := emit (EvClose (root k)).

(** Modelled from the spec: [Key.Get(id, key, &state)]. *)
Definition Get (k : Key) (id key : string) : M (bytes * error) :=
  f <- next_fault ;;
  match f with
  | Some e => _ <- emit (EvGet (root k) id key (Some e)) ;; ret ([], Some e)
  | None =>
      r <- get_registry ;;
      match record_of r (root k) id with
      | Some rec =>
          match rec !! key with
          | Some state => _ <- emit (EvGet (root k) id key nil) ;;
                          ret (state, nil)
          | None => _ <- emit (EvGet (root k) id key
                                 (Some (NotFoundError id))) ;;
                    ret ([], Some (NotFoundError id))
          end
      | None => _ <- emit (EvGet (root k) id key (Some (NotFoundError id))) ;;
                ret ([], Some (NotFoundError id))
      end
  end.

(** Modelled from the spec: [Key.Create(id, key, state)]; an existing
    record is never overwritten. *)
Definition Create (k : Key) (id key : string) (state : bytes) : M error :=
  f <- next_fault ;;
  match f with
  | Some e => _ <- emit (EvCreate (root k) id key state (Some e)) ;;
              ret (Some e)
  | None =>
      r <- get_registry ;;
      match record_of r (root k) id with
      | Some _ =>
          _ <- emit (EvCreate (root k) id key state (Some errAlreadyExists)) ;;
          ret (Some errAlreadyExists)
      | None =>
          _ <- put_registry
                 (<[root k := <[id := {[key := state]}]> (r !!! root k)]> r) ;;
          _ <- emit (EvCreate (root k) id key state nil) ;;
          ret nil
      end
  end.

(** Modelled from the spec: [Key.Remove(id)]. *)
Definition Remove (k : Key) (id : string) : M error :=
  f <- next_fault ;;
  match f with
  | Some e => _ <- emit (EvRemove (root k) id (Some e)) ;; ret (Some e)
  | None =>
      r <- get_registry ;;
      match record_of r (root k) id with
      | None => _ <- emit (EvRemove (root k) id (Some (NotFoundError id))) ;;
                ret (Some (NotFoundError id))
      | Some _ =>
          _ <- put_registry (<[root k := delete id (r !!! root k)]> r) ;;
          _ <- emit (EvRemove (root k) id nil) ;;
          ret nil
      end
  end.

End regstate.

(* ===================================================================== *)
(** ** Package clone *)
(* ===================================================================== *)

Module clone.

Definition configRoot : string := "LateClone".
Definition configKey : string := "UVMConfig".

(** [func init()]: registers the pointer types that are stored under the
    [Cloneable] interface. *)
Definition init (registry : list string) : list string :=
  gob.Register SCSIMount_ptr (gob.Register VSMBShare_ptr registry).

(** The type registry as the functions of the package find it. *)
Definition gobRegistry : list string := init [].

Definition encodeTemplateConfig (utc : UVMTemplateConfig) : M (bytes * error) :=
  let '(buf, err) := gob.Encode gobRegistry utc in
  _ <- emit (EvGobEncode err) ;;
  match err with
  | Some e =>
      ret ([], Some (Errorf ("error while encoding template config: "
                             ++ fmt_s (Some e))))
  | None => ret (buf, nil)
  end.

Definition decodeTemplateConfig (encodedBytes : bytes)
  : M (option UVMTemplateConfig * error) :=
  let '(utc, err) := gob.Decode gobRegistry encodedBytes uvm.zero in
  _ <- emit (EvGobDecode err) ;;
  match err with
  | Some e =>
      ret (None, Some (Errorf ("error while decoding template config: "
                               ++ fmt_s (Some e))))
  | None => ret (Some utc, nil)
  end.

Definition loadPersistedUVMConfig (id : string) : M (bytes * error) :=
  r <- regstate.Open configRoot false ;;
  match r with
  | inr err => ret ([], Some err)
  | inl sk =>
      defer (regstate.Close sk)
        (do (encodedConfig, err) <- regstate.Get sk id configKey ;;
         match err with
         | Some e => ret ([], Some e)
         | None => ret (encodedConfig, nil)
         end)
  end.

Definition storePersistedUVMConfig (id : string) (encodedConfig : bytes)
  : M error :=
  r <- regstate.Open configRoot false ;;
  match r with
  | inr err => ret (Some err)
  | inl sk =>
      defer (regstate.Close sk)
        (err <- regstate.Create sk id configKey encodedConfig ;;
         match err with
         | Some e => ret (Some e)
         | None => ret nil
         end)
  end.

Definition removePersistedUVMConfig (id : string) : M error :=
  r <- regstate.Open configRoot false ;;
  match r with
  | inr err =>
      if IsNotFoundError (Some err) then ret nil else ret (Some err)
  | inl sk =>
      defer (regstate.Close sk)
        (err <- regstate.Remove sk id ;;
         match err with
         | Some e =>
             if IsNotFoundError (Some e) then ret nil else ret (Some e)
         | None => ret nil
         end)
  end.

Definition SaveTemplateConfig (utc : UVMTemplateConfig) : M error :=
  do (unused, err) <- loadPersistedUVMConfig (UVMID utc) ;;
  if negb (IsNotFoundError err) then
    ret (Some (Errorf ("parent VM(ID: " ++ UVMID utc
                       ++ ") config shouldn't exit in registry ("
                       ++ fmt_s err ++ ")")))
  else
    do (encodedBytes, err) <- encodeTemplateConfig utc ;;
    match err with
    | Some e =>
        ret (Some (Errorf ("failed to encode template config: "
                           ++ fmt_s (Some e))))
    | None =>
        err <- storePersistedUVMConfig (UVMID utc) encodedBytes ;;
        match err with
        | Some e =>
            ret (Some (Errorf ("failed to store encoded template config: "
                               ++ fmt_s (Some e))))
        | None => ret nil
        end
    end.

Definition RemoveSavedTemplateConfig (id : string) : M error :=
  removePersistedUVMConfig id.

Definition FetchTemplateConfig (id : string)
  : M (option UVMTemplateConfig * error) :=
  do (encodedBytes, err) <- loadPersistedUVMConfig id ;;
  match err with
  | Some e =>
      ret (None, Some (Errorf ("failed to fetch encoded template config: "
                               ++ fmt_s (Some e))))
  | None =>
      do (utc, err) <- decodeTemplateConfig encodedBytes ;;
      match err with
      | Some e =>
          ret (None, Some (Errorf ("failed to decode template config: "
                                   ++ fmt_s (Some e))))
      | None => ret (utc, nil)
      end
  end.

End clone.

(* ===================================================================== *)
(** ** Package main: the save-as-template workflow *)
(* ===================================================================== *)

Module shim.

(** Modelled from the spec: [*uvm.UtilityVM] and its methods belong to
    package [uvm], which is not part of the sources at hand.  A virtual
    machine is a state of some type [V]; each method maps the state to
    its result and the next state.  [GenerateTemplateConfig] returns
    either a configuration or an error. *)
Record UtilityVM (V : Type) : Type := mkUtilityVM {
  RemoveAllNICs : V -> error * V;
  CloseGCSConnection : V -> error * V;
  GenerateTemplateConfig : V -> (UVMTemplateConfig + errval) * V;
  SaveAsTemplate : V -> error * V
}.
Arguments RemoveAllNICs {V} _ _.
Arguments CloseGCSConnection {V} _ _.
Arguments GenerateTemplateConfig {V} _ _.
Arguments SaveAsTemplate {V} _ _.

Definition err_of {A : Type} (r : A + errval) : error :=
  match r with
  | inl _ => nil
  | inr e => Some e
  end.

Section Workflow.
Context {V : Type} (uvm : UtilityVM V).

(** A method call on the virtual machine, recorded with its outcome. *)
Definition host_call {A : Type} (method : V -> A * V) (ev : A -> Event)
  (host : V) : M (A * V) :=
  let '(a, host') := method host in
  _ <- emit (ev a) ;; ret (a, host').

Definition saveAsTemplate (host : V) : M (error * V) :=
  do (err, host) <- host_call (RemoveAllNICs uvm) EvRemoveAllNICs host ;;
  match err with
  | Some e => ret (Some e, host)
  | None =>
  do (err, host) <- host_call (CloseGCSConnection uvm) EvCloseGCSConnection host ;;
  match err with
  | Some e => ret (Some e, host)
  | None =>
  do (r, host) <- host_call (GenerateTemplateConfig uvm)
                    (fun r => EvGenerateTemplateConfig (err_of r)) host ;;
  match r with
  | inr e => ret (Some e, host)
  | inl utc =>
  err <- clone.SaveTemplateConfig utc ;;
  match err with
  | Some e => ret (Some e, host)
  | None =>
  do (err, host) <- host_call (SaveAsTemplate uvm) EvSaveAsTemplate host ;;
  match err with
  | Some e => ret (Some e, host)
  | None => ret (nil, host)
  end end end end end.

(** *** The workflow as the design document words it

    "State machine over a single live VM handle, strictly sequential,
    fail-fast": five steps, each of which either fails or hands the
    machine on to the next one. *)

(** What the steps pass along: the virtual machine, the configuration
    generated so far (if any), and the world. *)
Record Flow : Type := mkFlow {
  flow_host : V;
  flow_config : option UVMTemplateConfig;
  flow_world : World
}.

Definition Step : Type := Flow -> error * Flow.

Definition lift_host {A : Type} (method : V -> A * V) (ev : A -> Event)
  (result : A -> error) (keep : A -> option UVMTemplateConfig -> option UVMTemplateConfig)
  : Step :=
  fun f =>
    let '((a, host'), w') := host_call method ev (flow_host f) (flow_world f) in
    (result a, {| flow_host := host'; flow_config := keep a (flow_config f);
                  flow_world := w' |}).

Definition step_detach : Step :=
  lift_host (RemoveAllNICs uvm) EvRemoveAllNICs id (fun _ c => c).

Definition step_sever : Step :=
  lift_host (CloseGCSConnection uvm) EvCloseGCSConnection id (fun _ c => c).

Definition step_generate : Step :=
  lift_host (GenerateTemplateConfig uvm)
    (fun r => EvGenerateTemplateConfig (err_of r)) err_of
    (fun r c => match r with inl utc => Some utc | inr _ => c end).

Definition step_persist : Step :=
  fun f =>
    match flow_config f with
    | None => (nil, f)
    | Some utc =>
        let '(err, w') := clone.SaveTemplateConfig utc (flow_world f) in
        (err, {| flow_host := flow_host f; flow_config := flow_config f;
                 flow_world := w' |})
    end.

Definition step_mark : Step :=
  lift_host (SaveAsTemplate uvm) EvSaveAsTemplate id (fun _ c => c).

(** First error aborts the remaining steps and is returned. *)
Fixpoint fail_fast (steps : list Step) (f : Flow) : error * Flow :=
  match steps with
  | [] => (nil, f)
  | step :: rest =>
      let '(err, f') := step f in
      match err with
      | Some e => (Some e, f')
      | None => fail_fast rest f'
      end
  end.

Definition workflow_spec (host : V) (w : World) : (error * V) * World :=
  let '(err, f) :=
    fail_fast [step_detach; step_sever; step_generate; step_persist; step_mark]
      {| flow_host := host; flow_config := None; flow_world := w |} in
  ((err, flow_host f), flow_world f).

End Workflow.

End shim.

(* ===================================================================== *)
(** ** Sequences of calls to the public operations of package clone *)
(* ===================================================================== *)

Inductive Call : Type :=
  | CallSave (utc : UVMTemplateConfig)
  | CallFetch (id : string)
  | CallRemove (id : string).

Definition run_call (c : Call) : M unit :=
  match c with
  | CallSave utc => _ <- clone.SaveTemplateConfig utc ;; ret tt
  | CallFetch id => _ <- clone.FetchTemplateConfig id ;; ret tt
  | CallRemove id => _ <- clone.RemoveSavedTemplateConfig id ;; ret tt
  end.

Fixpoint run_calls (cs : list Call) : M unit :=
  match cs with
  | [] => ret tt
  | c :: rest => _ <- run_call c ;; run_calls rest
  end.

(** [c] is a removal of the template [id]. *)
Definition removes (id : string) (c : Call) : bool :=
  match c with
  | CallRemove id' => bool_decide (id' = id)
  | _ => false
  end.

(* ===================================================================== *)
(** ** Vocabulary of the properties *)
(* ===================================================================== *)

(** A template configuration is valid when each of its resource
    descriptors is of a registered concrete type. *)
Definition valid_config (utc : UVMTemplateConfig) : Prop :=
  Forall (fun r => typeName r ∈ clone.gobRegistry) (Resources utc).

(** A blob that announces [count] descriptors, carries the well-formed
    descriptors [before], and then a descriptor whose variant tag is
    [tag], followed by anything. *)
Definition blob_with_tag (id : string) (count : N) (before : list Cloneable)
  (tag : string) (rest : bytes) : bytes :=
  gob.put_string id ++ gob.put_uvarint count
  ++ concat (map gob.put_resource before) ++ gob.put_string tag ++ rest.

(** The calls that encode a configuration or create a record. *)
Definition is_encode_or_store (e : Event) : bool :=
  match e with
  | EvGobEncode _ | EvCreate _ _ _ _ _ => true
  | _ => false
  end.





(** The step of the workflow to which a recorded call belongs: calls to
    the store and to the encoder are made by step 4, the save. *)
Definition step_of_event (e : Event) : nat :=
  match e with
  | EvRemoveAllNICs _ => 1
  | EvCloseGCSConnection _ => 2
  | EvGenerateTemplateConfig _ => 3
  | EvSaveAsTemplate _ => 5
  | _ => 4
  end.

Fixpoint nondecreasing (l : list nat) : bool :=
  match l with
  | a :: (b :: _) as rest => (Nat.leb a b) && nondecreasing rest
  | _ => true
  end.

(** The recorded calls follow the order of the steps. *)
Definition in_step_order (evs : list Event) : bool :=
  nondecreasing (map step_of_event evs).

(** The bytes persisted for the template [id]. *)
Definition persisted (w : World) (id : string) : option bytes :=
  stored w clone.configRoot id clone.configKey.

(** *** Handle discipline

    The calls on the store as a protocol: [Get], [Create] and [Remove] go
    through a handle that a successful [Open] has returned and that has
    not been closed yet; at most one handle is held at a time; [Close]
    releases the handle held.  [handle_run held evs] replays [evs] from
    the state [held] (is a handle held?) and yields the final state, or
    [None] if a call breaks the protocol. *)
Fixpoint handle_run (held : bool) (evs : list Event) : option bool :=
  match evs with
  | [] => Some held
  | e :: rest =>
      match e with
      | EvOpen _ None => if held then None else handle_run true rest
      | EvOpen _ (Some _) => if held then None else handle_run false rest
      | EvGet _ _ _ _ | EvCreate _ _ _ _ _ | EvRemove _ _ _ =>
          if held then handle_run true rest else None
      | EvClose _ => if held then handle_run false rest else None
      | _ => handle_run held rest
      end
  end.

(** Every handle opened in [evs] is closed in [evs], and no call is made
    on the store without one. *)
Definition handles_released (evs : list Event) : Prop :=
  handle_run false evs = Some false.

(** [w'] continues [w] by calls that satisfy [P]. *)
Definition adds (P : list Event -> Prop) (w w' : World) : Prop :=
  exists evs, trace w' = trace w ++ evs /\ P evs.

(** *** Well-formed stores

    Every persisted blob is the encoding of a valid configuration whose
    id is the key under which it is kept. *)
Definition store_wf (w : World) : Prop :=
  forall (id : string) (b : bytes),
    persisted w id = Some b ->
    exists utc, valid_config utc /\ UVMID utc = id /\ b = gob.put_config utc.

(** No record at all is kept for [id]. *)
Definition absent (w : World) (id : string) : Prop :=
  record_of (registry w) clone.configRoot id = None.

(** The calls that change the registry. *)
Definition is_write (e : Event) : bool :=
  match e with
  | EvCreate _ _ _ _ _ | EvRemove _ _ _ => true
  | _ => false
  end.

(** [w'] is [w] after at most [n] fallible calls on the store. *)
Definition consumes (n : nat) (w w' : World) : Prop :=
  exists k, k <= n /\ faults w' = drop k (faults w).

(** The template that a call is about. *)
Definition call_id (c : Call) : string :=
  match c with
  | CallSave utc => UVMID utc
  | CallFetch id => id
  | CallRemove id => id
  end.

(** [w] with more calls recorded. *)
Definition with_events (evs : list Event) (w : World) : World :=
  {| registry := registry w; faults := faults w; trace := trace w ++ evs |}.

(* ===================================================================== *)
(** ** Concrete worlds, configurations and machines used as test inputs *)
(* ===================================================================== *)

Module Examples.

Definition w0 : World := {| registry := ∅; faults := []; trace := [] |}.

Definition share : Cloneable :=
  {| typeName := VSMBShare_ptr; fields := ["001"; "002"; "003"]%byte |}.

Definition disk : Cloneable :=
  {| typeName := SCSIMount_ptr; fields := ["255"; "000"]%byte |}.

Definition plan9 : Cloneable :=
  {| typeName := "*uvm.Plan9Share"; fields := ["007"]%byte |}.

Definition cfgA : UVMTemplateConfig :=
  {| UVMID := "vm-a"; Resources := [share; disk] |}.

Definition cfgA' : UVMTemplateConfig :=
  {| UVMID := "vm-a"; Resources := [disk] |}.

Definition cfgB : UVMTemplateConfig :=
  {| UVMID := "vm-b"; Resources := [share; disk] |}.

Definition cfgBad : UVMTemplateConfig :=
  {| UVMID := "vm-c"; Resources := [share; plan9] |}.

Definition accessDenied : errval :=
  opaqueError "syscall.Errno" "Access is denied.".

(** A healthy probe, then the store refuses to be opened for writing. *)
Definition wDenied : World :=
  {| registry := ∅; faults := [nil; nil; Some accessDenied]; trace := [] |}.

(** The namespace itself is reported missing. *)
Definition wNoNamespace : World :=
  {| registry := ∅; faults := [Some (NotFoundError "LateClone")]; trace := [] |}.

(** A virtual machine whose state counts the method calls made on it and
    whose control channel refuses to close. *)
Definition stuckChannel : shim.UtilityVM nat :=
  {| shim.RemoveAllNICs := fun n => (nil, S n);
     shim.CloseGCSConnection := fun n => (Some (errorString "gcs: bridge closed"), S n);
     shim.GenerateTemplateConfig := fun n => (inl cfgA, S n);
     shim.SaveAsTemplate := fun n => (nil, S n) |}.

Definition healthyVM : shim.UtilityVM nat :=
  {| shim.RemoveAllNICs := fun n => (nil, S n);
     shim.CloseGCSConnection := fun n => (nil, S n);
     shim.GenerateTemplateConfig := fun n => (inl cfgA, S n);
     shim.SaveAsTemplate := fun n => (nil, S n) |}.

End Examples.

Module WorkflowExamples.

(** A virtual machine on which everything works but the final marking as
    a template. *)
Definition failsToMark : shim.UtilityVM nat :=
  {| shim.RemoveAllNICs := fun n => (nil, S n);
     shim.CloseGCSConnection := fun n => (nil, S n);
     shim.GenerateTemplateConfig := fun n => (inl Examples.cfgA, S n);
     shim.SaveAsTemplate := fun n => (Some (errorString "hcs: save failed"), S n) |}.

End WorkflowExamples.

Module gob_facts.
Import gob.

Lemma to_N_byte_of_N (n : N) : (n <= 255)%N -> Byte.to_N (byte_of_N n) = n.
Proof.
  intros Hn. unfold byte_of_N.
  destruct (Byte.of_N n) as [b|] eqn:Hb.
  - by apply Byte.to_of_N.
  - apply Byte.of_N_None_iff in Hb. lia.
Qed.

Lemma get_put_uvarint_fuel (fuel : nat) :
  forall (n : N) (rest : bytes),
    (n < 2 ^ N.of_nat fuel)%N ->
    get_uvarint (put_uvarint_fuel fuel n ++ rest) = Some (n, rest).
Proof.
  induction fuel as [|fuel IH]; intros n rest Hn.
  - change (N.of_nat 0) with 0%N in Hn. rewrite N.pow_0_r in Hn.
    apply N.lt_1_r in Hn. subst n. reflexivity.
  - cbn [put_uvarint_fuel].
    destruct (n <? 128)%N eqn:Hsmall.
    + apply N.ltb_lt in Hsmall. cbn [app get_uvarint].
      rewrite to_N_byte_of_N by lia.
      apply N.ltb_lt in Hsmall. by rewrite Hsmall.
    + apply N.ltb_ge in Hsmall. cbn [app get_uvarint].
      pose proof (N.mod_lt n 128 ltac:(lia)) as Hmod.
      pose proof (N.div_mod n 128 ltac:(lia)) as Hdiv.
      rewrite Nat2N.inj_succ, N.pow_succ_r' in Hn.
      set (q := (n / 128)%N) in *. set (r := (n mod 128)%N) in *.
      clearbody q r.
      rewrite to_N_byte_of_N by lia.
      destruct (128 + r <? 128)%N eqn:Hhi.
      { apply N.ltb_lt in Hhi. lia. }
      rewrite IH by lia.
      f_equal. f_equal. lia.
Qed.

Lemma get_put_uvarint (n : N) (rest : bytes) :
  get_uvarint (put_uvarint n ++ rest) = Some (n, rest).
Proof.
  unfold put_uvarint. apply get_put_uvarint_fuel.
  rewrite N2Nat.id. apply N.size_gt.
Qed.

Lemma get_put_bytes (b rest : bytes) :
  get_bytes (put_bytes b ++ rest) = Some (b, rest).
Proof.
  unfold get_bytes, put_bytes. rewrite <- List.app_assoc, get_put_uvarint.
  rewrite List.length_app.
  destruct (N.of_nat (length b + length rest) <? N.of_nat (length b))%N eqn:Hlt.
  { apply N.ltb_lt in Hlt. lia. }
  rewrite Nat2N.id. by rewrite take_app_length, drop_app_length.
Qed.

Lemma get_put_string (s : string) (rest : bytes) :
  get_string (put_string s ++ rest) = Some (s, rest).
Proof.
  unfold get_string, put_string. rewrite get_put_bytes.
  by rewrite string_of_list_byte_of_string.
Qed.

Lemma get_put_resource (reg : list string) (r : Cloneable) (rest : bytes) :
  typeName r ∈ reg ->
  get_resource reg (put_resource r ++ rest) = inl (r, rest).
Proof.
  intros Hreg. unfold get_resource, put_resource.
  rewrite <- List.app_assoc, get_put_string.
  unfold is_registered. rewrite bool_decide_eq_true_2 by done.
  rewrite get_put_bytes. by destruct r.
Qed.

Lemma get_put_resources (reg : list string) (rs : list Cloneable) :
  forall rest : bytes,
    Forall (fun r => typeName r ∈ reg) rs ->
    get_resources reg (length rs) (concat (map put_resource rs) ++ rest)
    = (rs, nil).
Proof.
  induction rs as [|r rs IH]; intros rest Hall; [reflexivity|].
  inversion Hall as [|? ? Hr Hrs]; subst.
  cbn [length map concat get_resources].
  rewrite <- List.app_assoc, get_put_resource by done.
  by rewrite IH.
Qed.

(** Decoding stops at the first descriptor whose tag is not registered,
    with the descriptors before it already stored. *)
Lemma get_resources_unregistered (reg : list string) (before : list Cloneable)
  (tag : string) :
  forall (n : nat) (rest : bytes),
    Forall (fun r => typeName r ∈ reg) before ->
    tag ∉ reg ->
    length before < n ->
    get_resources reg n
      (concat (map put_resource before) ++ put_string tag ++ rest)
    = (before, Some (errNameNotRegistered tag)).
Proof.
  induction before as [|r rs IH]; intros n rest Hall Htag Hlen.
  - destruct n as [|n]; [simpl in Hlen; lia|].
    cbn [map concat app get_resources]. unfold get_resource.
    rewrite get_put_string. unfold is_registered.
    by rewrite bool_decide_eq_false_2.
  - destruct n as [|n]; [simpl in Hlen; lia|].
    inversion Hall as [|? ? Hr Hrs]; subst.
    cbn [map concat get_resources].
    rewrite <- List.app_assoc, get_put_resource by done.
    rewrite IH; [done..|]. simpl in Hlen. lia.
Qed.

Lemma find_unregistered_None (reg : list string) (rs : list Cloneable) :
  Forall (fun r => typeName r ∈ reg) rs ->
  List.find (fun r => negb (is_registered reg (typeName r))) rs = None.
Proof.
  induction 1 as [|r rs Hr _ IH]; [reflexivity|].
  cbn [List.find]. unfold is_registered at 1.
  by rewrite bool_decide_eq_true_2.
Qed.

Lemma find_unregistered_Some (reg : list string) (rs : list Cloneable) (r : Cloneable) :
  List.find (fun r => negb (is_registered reg (typeName r))) rs = Some r ->
  r ∈ rs /\ typeName r ∉ reg.
Proof.
  intros Hfind. apply List.find_some in Hfind as [Hin Hneg].
  split; [by apply list_elem_of_In|].
  unfold is_registered in Hneg. apply negb_true_iff in Hneg.
  by apply bool_decide_eq_false in Hneg.
Qed.

Lemma Encode_valid (reg : list string) (utc : UVMTemplateConfig) :
  Forall (fun r => typeName r ∈ reg) (Resources utc) ->
  Encode reg utc = (put_config utc, nil).
Proof.
  intros Hall. unfold Encode. by rewrite find_unregistered_None.
Qed.

(** The encoder succeeds exactly on the valid configurations. *)
Lemma Encode_ok_inv (reg : list string) (utc : UVMTemplateConfig) (b : bytes) :
  Encode reg utc = (b, nil) ->
  Forall (fun r => typeName r ∈ reg) (Resources utc) /\ b = put_config utc.
Proof.
  unfold Encode. intros Henc.
  destruct (List.find _ _) as [r|] eqn:Hfind; [discriminate|].
  split; [|congruence].
  apply Forall_forall. intros r Hr.
  destruct (decide (typeName r ∈ reg)) as [|Hno]; [done|].
  apply list_elem_of_In in Hr.
  eapply List.find_none in Hfind; [|exact Hr].
  unfold is_registered in Hfind. by rewrite bool_decide_eq_false_2 in Hfind.
Qed.

Lemma Decode_put_config (reg : list string) (utc dst : UVMTemplateConfig)
  (rest : bytes) :
  Forall (fun r => typeName r ∈ reg) (Resources utc) ->
  Decode reg (put_config utc ++ rest) dst = (utc, nil).
Proof.
  intros Hall. unfold Decode, put_config.
  rewrite <- !List.app_assoc, get_put_string, get_put_uvarint, Nat2N.id.
  rewrite get_put_resources by done. by destruct utc.
Qed.

End gob_facts.

(* ===================================================================== *)
(** ** Facts about the registry and the persistence wrappers *)
(* ===================================================================== *)

Module world_facts.

Ltac unfold_store :=
  unfold regstate.Open, regstate.Close, regstate.Get, regstate.Create,
    regstate.Remove, defer, bind, ret, emit, next_fault, get_registry,
    put_registry in *.

Ltac unfold_clone :=
  unfold clone.SaveTemplateConfig, clone.FetchTemplateConfig,
    clone.RemoveSavedTemplateConfig, clone.removePersistedUVMConfig,
    clone.storePersistedUVMConfig, clone.loadPersistedUVMConfig,
    clone.encodeTemplateConfig, clone.decodeTemplateConfig in *.

(** Runs a package function symbolically: every pending fault and every
    registry lookup becomes a case. *)
Ltac step_world :=
  cbn [fst snd registry faults trace regstate.root] in *.

Ltac run_cases :=
  unfold_clone; unfold_store; step_world;
  repeat (case_match; step_world); simplify_eq; step_world.

Lemma record_of_insert_eq
  (r : gmap string (gmap string (gmap string bytes)))
  (root id : string) (rec : gmap string bytes) :
  record_of (<[root := <[id := rec]> (r !!! root)]> r) root id = Some rec.
Proof.
  unfold record_of. by rewrite lookup_total_insert_eq, lookup_insert_eq.
Qed.

Lemma record_of_insert_ne
  (r : gmap string (gmap string (gmap string bytes)))
  (root id id' : string) (rec : gmap string bytes) :
  id' <> id ->
  record_of (<[root := <[id' := rec]> (r !!! root)]> r) root id
  = record_of r root id.
Proof.
  intros Hne. unfold record_of.
  by rewrite lookup_total_insert_eq, lookup_insert_ne.
Qed.

Lemma record_of_delete_eq
  (r : gmap string (gmap string (gmap string bytes))) (root id : string) :
  record_of (<[root := delete id (r !!! root)]> r) root id = None.
Proof.
  unfold record_of. by rewrite lookup_total_insert_eq, lookup_delete_eq.
Qed.

Lemma record_of_delete_ne
  (r : gmap string (gmap string (gmap string bytes)))
  (root id id' : string) :
  id' <> id ->
  record_of (<[root := delete id' (r !!! root)]> r) root id
  = record_of r root id.
Proof.
  intros Hne. unfold record_of.
  by rewrite lookup_total_insert_eq, lookup_delete_ne.
Qed.

Lemma persisted_record (w : World) (id : string) (b : bytes) :
  persisted w id = Some b ->
  exists rec, record_of (registry w) clone.configRoot id = Some rec
              /\ rec !! clone.configKey = Some b.
Proof.
  unfold persisted, stored. destruct (record_of _ _ _) as [rec|]; [|done].
  intros Hb. by exists rec.
Qed.

(** *** Reading never writes *)

Lemma load_registry (id : string) (w : World) :
  registry (snd (clone.loadPersistedUVMConfig id w)) = registry w.
Proof. destruct w as [r fs tr]. by run_cases. Qed.

Lemma Fetch_registry (id : string) (w : World) :
  registry (snd (clone.FetchTemplateConfig id w)) = registry w.
Proof. destruct w as [r fs tr]. by run_cases. Qed.

(** *** The codec wrappers only add an event *)

Lemma encode_world (utc : UVMTemplateConfig) (w : World) :
  snd (clone.encodeTemplateConfig utc w)
  = snd (emit (EvGobEncode (snd (gob.Encode clone.gobRegistry utc))) w).
Proof.
  unfold clone.encodeTemplateConfig.
  destruct (gob.Encode _ _) as [buf [e|]]; reflexivity.
Qed.

Lemma encodeTemplateConfig_ok_inv (utc : UVMTemplateConfig) (w : World) (buf : bytes) :
  fst (clone.encodeTemplateConfig utc w) = (buf, nil) ->
  gob.Encode clone.gobRegistry utc = (buf, nil).
Proof.
  unfold clone.encodeTemplateConfig.
  destruct (gob.Encode _ _) as [buf' [e|]]; cbn; congruence.
Qed.

Lemma encode_registry (utc : UVMTemplateConfig) (w : World) :
  registry (snd (clone.encodeTemplateConfig utc w)) = registry w.
Proof. by rewrite encode_world. Qed.

(** *** Creating never overwrites *)

Lemma store_ok_inv (id : string) (b : bytes) (w : World) :
  fst (clone.storePersistedUVMConfig id b w) = nil ->
  record_of (registry w) clone.configRoot id = None
  /\ record_of (registry (snd (clone.storePersistedUVMConfig id b w)))
       clone.configRoot id
     = Some {[clone.configKey := b]}.
Proof.
  destruct w as [r fs tr]. intros Hok. run_cases; try done.
  all: by rewrite record_of_insert_eq.
Qed.

Lemma store_preserves_record (id id' : string) (b : bytes) (w : World)
  (rec : gmap string bytes) :
  record_of (registry w) clone.configRoot id' = Some rec ->
  record_of (registry (snd (clone.storePersistedUVMConfig id b w)))
    clone.configRoot id' = Some rec.
Proof.
  destruct w as [r fs tr]. intros Hrec. run_cases; try done.
  all: rewrite record_of_insert_ne; [done|congruence].
Qed.

(** *** Saving never touches an existing record *)

(** The three ways in which [SaveTemplateConfig] ends. *)
Lemma Save_cases (utc : UVMTemplateConfig) (w : World) :
  let probe := clone.loadPersistedUVMConfig (UVMID utc) w in
  let enc := clone.encodeTemplateConfig utc (snd probe) in
  let sto := clone.storePersistedUVMConfig (UVMID utc) (fst (fst enc)) (snd enc) in
  clone.SaveTemplateConfig utc w =
    if negb (IsNotFoundError (snd (fst probe))) then
      (Some (Errorf ("parent VM(ID: " ++ UVMID utc
                     ++ ") config shouldn't exit in registry ("
                     ++ fmt_s (snd (fst probe)) ++ ")")), snd probe)
    else
      match snd (fst enc) with
      | Some e =>
          (Some (Errorf ("failed to encode template config: "
                         ++ fmt_s (Some e))), snd enc)
      | None =>
          match fst sto with
          | Some e =>
              (Some (Errorf ("failed to store encoded template config: "
                             ++ fmt_s (Some e))), snd sto)
          | None => (nil, snd sto)
          end
      end.
Proof.
  cbv zeta. unfold clone.SaveTemplateConfig. unfold bind at 1.
  destruct (clone.loadPersistedUVMConfig _ _) as [[b probe] w1]. cbn [fst snd].
  destruct (negb _); [reflexivity|]. unfold bind at 1.
  destruct (clone.encodeTemplateConfig _ _) as [[buf [e|]] w2]; cbn [fst snd];
    [reflexivity|].
  unfold bind at 1.
  destruct (clone.storePersistedUVMConfig _ _ _) as [[e|] w3]; reflexivity.
Qed.

Lemma Save_rejects_existing (utc : UVMTemplateConfig) (w : World)
  (rec : gmap string bytes) :
  record_of (registry w) clone.configRoot (UVMID utc) = Some rec ->
  fst (clone.SaveTemplateConfig utc w) <> nil.
Proof.
  intros Hrec. rewrite Save_cases. cbv zeta.
  destruct (negb _); [done|].
  destruct (snd (fst (clone.encodeTemplateConfig _ _))); [done|].
  destruct (fst (clone.storePersistedUVMConfig _ _ _)) eqn:Hsto; [done|].
  apply store_ok_inv in Hsto as [Hnone _].
  rewrite encode_registry, load_registry in Hnone. congruence.
Qed.

Lemma Save_preserves_record (utc : UVMTemplateConfig) (w : World)
  (id : string) (rec : gmap string bytes) :
  record_of (registry w) clone.configRoot id = Some rec ->
  record_of (registry (snd (clone.SaveTemplateConfig utc w)))
    clone.configRoot id = Some rec.
Proof.
  intros Hrec.
  assert (record_of (registry (snd (clone.encodeTemplateConfig utc
            (snd (clone.loadPersistedUVMConfig (UVMID utc) w)))))
            clone.configRoot id = Some rec) as Henc
    by by rewrite encode_registry, load_registry.
  rewrite Save_cases. cbv zeta.
  destruct (negb _); cbn [snd]; [by rewrite load_registry|].
  destruct (snd (fst (clone.encodeTemplateConfig _ _))); cbn [snd]; [done|].
  destruct (fst (clone.storePersistedUVMConfig _ _ _)); cbn [snd];
    by apply store_preserves_record.
Qed.

(** A save that reports success has created the record. *)
Lemma Save_ok_inv (utc : UVMTemplateConfig) (w : World) :
  fst (clone.SaveTemplateConfig utc w) = nil ->
  record_of (registry w) clone.configRoot (UVMID utc) = None
  /\ valid_config utc
  /\ record_of (registry (snd (clone.SaveTemplateConfig utc w)))
       clone.configRoot (UVMID utc)
     = Some {[clone.configKey := gob.put_config utc]}.
Proof.
  rewrite Save_cases. cbv zeta.
  destruct (negb _); [done|].
  destruct (clone.encodeTemplateConfig _ _) as [[buf err] w2] eqn:Henc.
  cbn [fst snd]. destruct err as [e|]; [done|].
  pose proof (encodeTemplateConfig_ok_inv utc _ buf ltac:(by rewrite Henc)) as Hgob.
  apply gob_facts.Encode_ok_inv in Hgob as [Hvalid ->].
  destruct (fst (clone.storePersistedUVMConfig _ _ _)) eqn:Hsto; [done|].
  intros _. apply store_ok_inv in Hsto as [Hnone Hsome].
  replace (registry w2) with (registry w) in Hnone; [done|].
  pose proof (encode_registry utc
                (snd (clone.loadPersistedUVMConfig (UVMID utc) w))) as Hreg.
  rewrite Henc, load_registry in Hreg. done.
Qed.

(** *** Removing another template leaves this one alone *)

Lemma Remove_preserves_other (id id' : string) (w : World) :
  id' <> id ->
  record_of (registry (snd (clone.RemoveSavedTemplateConfig id' w)))
    clone.configRoot id
  = record_of (registry w) clone.configRoot id.
Proof.
  destruct w as [r fs tr]. intros Hne. run_cases; try done.
  all: by rewrite record_of_delete_ne.
Qed.

Lemma run_call_preserves_record (c : Call) (w : World) (id : string)
  (rec : gmap string bytes) :
  removes id c = false ->
  record_of (registry w) clone.configRoot id = Some rec ->
  record_of (registry (snd (run_call c w))) clone.configRoot id = Some rec.
Proof.
  intros Hc Hrec. destruct c as [utc|id'|id']; unfold run_call, bind, ret.
  - pose proof (Save_preserves_record utc w id rec Hrec) as H.
    by destruct (clone.SaveTemplateConfig utc w).
  - pose proof (Fetch_registry id' w) as H.
    destruct (clone.FetchTemplateConfig id' w) as [? w']. simpl in *.
    by rewrite H.
  - simpl in Hc. apply bool_decide_eq_false in Hc.
    pose proof (Remove_preserves_other id id' w Hc) as H.
    destruct (clone.RemoveSavedTemplateConfig id' w) as [? w']. simpl in *.
    by rewrite H.
Qed.

Lemma run_calls_preserve_record (cs : list Call) (id : string)
  (rec : gmap string bytes) :
  forall w : World,
    Forall (fun c => removes id c = false) cs ->
    record_of (registry w) clone.configRoot id = Some rec ->
    record_of (registry (snd (run_calls cs w))) clone.configRoot id
    = Some rec.
Proof.
  induction cs as [|c cs IH]; intros w Hcs Hrec; [done|].
  inversion Hcs as [|? ? Hc Hrest]; subst.
  cbn [run_calls]. unfold bind.
  pose proof (run_call_preserves_record c w id rec Hc Hrec) as H.
  destruct (run_call c w) as [[] w']. by apply IH.
Qed.

(** *** The persistence wrappers when the underlying store is healthy *)

Lemma calm_cons (n : nat) (f : error) (fs : list error)
  (r : gmap string (gmap string (gmap string bytes))) (tr : list Event) :
  calm (S n) {| registry := r; faults := f :: fs; trace := tr |} ->
  f = nil /\ forall r' tr', calm n {| registry := r'; faults := fs; trace := tr' |}.
Proof.
  unfold calm. cbn [faults take]. intros H.
  inversion H as [|? ? Hf Hfs]; subst. by split.
Qed.

Lemma calm_nil (n : nat) (r : gmap string (gmap string (gmap string bytes)))
  (tr : list Event) :
  calm n {| registry := r; faults := []; trace := tr |}.
Proof. unfold calm. cbn [faults]. rewrite take_nil. constructor. Qed.

Lemma calm_le (n m : nat) (w : World) : n <= m -> calm m w -> calm n w.
Proof.
  unfold calm. intros Hle Hm. apply Forall_forall. intros f Hf.
  rewrite Forall_forall in Hm. apply Hm.
  apply list_elem_of_lookup in Hf as [i Hi].
  apply list_elem_of_lookup. exists i.
  apply lookup_take_Some in Hi as [Hi Hlt].
  apply lookup_take_Some. split; [done|lia].
Qed.

Ltac calm_cases w H :=
  destruct w as [r fs tr];
  destruct fs as [|f1 fs];
  [|apply calm_cons in H as [-> H];
    destruct fs as [|f2 fs];
    [|specialize (H r tr); apply calm_cons in H as [-> H]]].

Lemma load_calm (id : string) (w : World) :
  calm 2 w ->
  fst (clone.loadPersistedUVMConfig id w)
  = match persisted w id with
    | Some b => (b, nil)
    | None => ([], Some (NotFoundError id))
    end.
Proof.
  intros Hcalm. unfold persisted, stored.
  calm_cases w Hcalm; run_cases; congruence.
Qed.

Lemma remove_calm (id : string) (w : World) :
  calm 2 w ->
  fst (clone.removePersistedUVMConfig id w) = nil
  /\ record_of (registry (snd (clone.removePersistedUVMConfig id w)))
       clone.configRoot id = None.
Proof.
  intros Hcalm.
  calm_cases w Hcalm; run_cases; try done.
  all: by rewrite record_of_delete_eq.
Qed.

(** A removal consumes at most two pending outcomes of the store. *)
Lemma remove_faults (id : string) (w : World) :
  exists k, k <= 2
    /\ faults (snd (clone.removePersistedUVMConfig id w)) = drop k (faults w).
Proof.
  destruct w as [r fs tr]. run_cases.
  all: subst; first [ exists 0; split; [lia|reflexivity]
             | exists 1; split; [lia|reflexivity]
             | exists 2; split; [lia|reflexivity] ].
Qed.

Lemma calm_drop (n k : nat) (w w' : World) :
  calm (n + k) w -> faults w' = drop k (faults w) -> calm n w'.
Proof.
  unfold calm. intros Hw ->. apply Forall_forall. intros f Hf.
  rewrite Forall_forall in Hw. apply Hw.
  apply list_elem_of_lookup in Hf as [i Hi].
  apply lookup_take_Some in Hi as [Hi Hlt].
  rewrite lookup_drop in Hi.
  apply list_elem_of_lookup. exists (k + i).
  apply lookup_take_Some. split; [done|lia].
Qed.

(** An error reported by a removal is a failure of the underlying store,
    and not a not-found one. *)
Lemma remove_error_inv (id : string) (w : World) (e : errval) :
  fst (clone.removePersistedUVMConfig id w) = Some e ->
  IsNotFoundError (Some e) = false /\ Some e ∈ take 2 (faults w).
Proof.
  destruct w as [r fs tr]. intros Herr. run_cases; try done.
  all: split; [done|cbn [take]; set_solver].
Qed.

(** *** Decoding and fetching *)

Lemma decode_cases (b : bytes) (w : World) :
  clone.decodeTemplateConfig b w =
    (match gob.Decode clone.gobRegistry b uvm.zero with
     | (_, Some e) =>
         (None, Some (Errorf ("error while decoding template config: "
                              ++ fmt_s (Some e))))
     | (utc, None) => (Some utc, nil)
     end,
     snd (emit (EvGobDecode (snd (gob.Decode clone.gobRegistry b uvm.zero))) w)).
Proof.
  unfold clone.decodeTemplateConfig.
  destruct (gob.Decode _ _ _) as [utc [e|]]; reflexivity.
Qed.

Lemma Fetch_cases (id : string) (w : World) :
  let probe := clone.loadPersistedUVMConfig id w in
  let dec := clone.decodeTemplateConfig (fst (fst probe)) (snd probe) in
  clone.FetchTemplateConfig id w =
    match snd (fst probe) with
    | Some e =>
        ((None, Some (Errorf ("failed to fetch encoded template config: "
                              ++ fmt_s (Some e)))), snd probe)
    | None =>
        match snd (fst dec) with
        | Some e =>
            ((None, Some (Errorf ("failed to decode template config: "
                                  ++ fmt_s (Some e)))), snd dec)
        | None => ((fst (fst dec), nil), snd dec)
        end
    end.
Proof.
  cbv zeta. unfold clone.FetchTemplateConfig. unfold bind at 1.
  destruct (clone.loadPersistedUVMConfig _ _) as [[b [e|]] w1]; cbn [fst snd];
    [reflexivity|].
  unfold bind at 1.
  destruct (clone.decodeTemplateConfig _ _) as [[utc [e|]] w2]; reflexivity.
Qed.

(** *** What the persistence wrappers add to the trace *)

Lemma load_trace (id : string) (w : World) :
  exists evs,
    trace (snd (clone.loadPersistedUVMConfig id w)) = trace w ++ evs
    /\ Forall (fun e => is_encode_or_store e = false) evs.
Proof.
  destruct w as [r fs tr]. run_cases.
  all: rewrite <- ?List.app_assoc; eexists; split; [reflexivity|].
  all: by repeat constructor.
Qed.

Lemma store_trace (id : string) (b : bytes) (w : World) :
  exists oerr rest,
    trace (snd (clone.storePersistedUVMConfig id b w))
    = trace w ++ EvOpen clone.configRoot oerr :: rest.
Proof.
  destruct w as [r fs tr]. run_cases.
  all: rewrite <- ?List.app_assoc; by eexists _, _.
Qed.

(** *** Every call made by a save belongs to step 4 of the workflow *)

Lemma nondecreasing_persist (evs : list Event) (tail : list nat) :
  forall a : nat,
    a <= 4 ->
    Forall (fun e => step_of_event e = 4) evs ->
    nondecreasing (4 :: tail) = true ->
    nondecreasing (a :: map step_of_event evs ++ tail) = true.
Proof.
  induction evs as [|e evs IH]; intros a Ha Hevs Htail.
  - destruct tail as [|b tail]; [done|].
    cbn [map app nondecreasing] in *.
    apply andb_true_iff in Htail as [Hb Htail].
    apply Nat.leb_le in Hb.
    apply andb_true_iff. split; [apply Nat.leb_le; lia|done].
  - inversion Hevs as [|? ? He Hrest]; subst.
    cbn [map app]. rewrite He.
    change (nondecreasing (a :: 4 :: map step_of_event evs ++ tail))
      with ((Nat.leb a 4) && nondecreasing (4 :: map step_of_event evs ++ tail)).
    apply andb_true_iff. split; [by apply Nat.leb_le|].
    by apply IH.
Qed.

Lemma load_trace_steps (id : string) (w : World) :
  exists evs,
    trace (snd (clone.loadPersistedUVMConfig id w)) = trace w ++ evs
    /\ Forall (fun e => step_of_event e = 4) evs.
Proof.
  destruct w as [r fs tr]. run_cases.
  all: rewrite <- ?List.app_assoc; eexists; split; [reflexivity|].
  all: by repeat constructor.
Qed.

Lemma store_trace_steps (id : string) (b : bytes) (w : World) :
  exists evs,
    trace (snd (clone.storePersistedUVMConfig id b w)) = trace w ++ evs
    /\ Forall (fun e => step_of_event e = 4) evs.
Proof.
  destruct w as [r fs tr]. run_cases.
  all: rewrite <- ?List.app_assoc; eexists; split; [reflexivity|].
  all: by repeat constructor.
Qed.

Lemma Save_trace_steps (utc : UVMTemplateConfig) (w : World) :
  exists evs,
    trace (snd (clone.SaveTemplateConfig utc w)) = trace w ++ evs
    /\ Forall (fun e => step_of_event e = 4) evs.
Proof.
  rewrite Save_cases. cbv zeta.
  destruct (load_trace_steps (UVMID utc) w) as (evs1 & Ht1 & Hs1).
  set (w1 := snd (clone.loadPersistedUVMConfig (UVMID utc) w)) in *.
  pose proof (encode_world utc w1) as Hw2.
  set (w2 := snd (clone.encodeTemplateConfig utc w1)) in *.
  assert (exists evs2, trace w2 = trace w ++ evs2
            /\ Forall (fun e => step_of_event e = 4) evs2) as (evs2 & Ht2 & Hs2).
  { rewrite Hw2. cbn [emit snd trace]. rewrite Ht1, <- List.app_assoc.
    eexists. split; [reflexivity|].
    apply Forall_app. split; [done|]. by repeat constructor. }
  destruct (negb _); cbn [snd]; [by exists evs1|].
  destruct (snd (fst (clone.encodeTemplateConfig utc w1))); cbn [snd];
    [by exists evs2|].
  destruct (store_trace_steps (UVMID utc)
              (fst (fst (clone.encodeTemplateConfig utc w1))) w2)
    as (evs3 & Ht3 & Hs3).
  assert (exists evs, trace (snd (clone.storePersistedUVMConfig (UVMID utc)
                                (fst (fst (clone.encodeTemplateConfig utc w1))) w2))
                      = trace w ++ evs
            /\ Forall (fun e => step_of_event e = 4) evs) as Hsto.
  { rewrite Ht3, Ht2, <- List.app_assoc. eexists. split; [reflexivity|].
    apply Forall_app. by split. }
  by destruct (fst (clone.storePersistedUVMConfig _ _ _)).
Qed.

End world_facts.

(* ===================================================================== *)
(** ** The model at work on concrete inputs *)
(* ===================================================================== *)

Module sanity.
Import Examples.

Example uvarint_300 : gob.put_uvarint 300 = ["172"; "002"]%byte.
Proof. reflexivity. Qed.

Example encode_unregistered :
  gob.Encode clone.gobRegistry cfgBad
  = ([], Some (errorString
                 "gob: type not registered for interface: *uvm.Plan9Share")).
Proof. reflexivity. Qed.

Example decode_truncated :
  fst (clone.decodeTemplateConfig (take 7 (gob.put_config cfgA)) w0)
  = (None, Some (errorString
                   "error while decoding template config: unexpected EOF")).
Proof. vm_compute. reflexivity. Qed.

Example save_trace :
  trace (snd (clone.SaveTemplateConfig cfgA w0))
  = [EvOpen "LateClone" nil;
     EvGet "LateClone" "vm-a" "UVMConfig" (Some (NotFoundError "vm-a"));
     EvClose "LateClone";
     EvGobEncode nil;
     EvOpen "LateClone" nil;
     EvCreate "LateClone" "vm-a" "UVMConfig" (gob.put_config cfgA) nil;
     EvClose "LateClone"].
Proof. vm_compute. reflexivity. Qed.

Example save_denied :
  fst (clone.SaveTemplateConfig cfgA wDenied)
  = Some (errorString
            "failed to store encoded template config: Access is denied.").
Proof. vm_compute. reflexivity. Qed.

Example healthy_workflow :
  fst (shim.saveAsTemplate healthyVM 0 w0) = (nil, 4)
  /\ persisted (snd (shim.saveAsTemplate healthyVM 0 w0)) "vm-a"
     = Some (gob.put_config cfgA)
  /\ in_step_order (trace (snd (shim.saveAsTemplate healthyVM 0 w0))) = true.
Proof. vm_compute. repeat split. Qed.

End sanity.

(* ===================================================================== *)
(** ** The codec *)
(* ===================================================================== *)

Section Codec.

(** C2. Round-trip law: for every valid template configuration,
    [encodeTemplateConfig] succeeds, and [decodeTemplateConfig] applied to
    the bytes it produced succeeds and yields the same configuration: the
    same template id and the same ordered sequence of resource
    descriptors, each with its concrete type. *)
Theorem codec_round_trip (utc : UVMTemplateConfig) (w w' : World) :
  valid_config utc ->
  exists b : bytes,
    fst (clone.encodeTemplateConfig utc w) = (b, nil)
    /\ fst (clone.decodeTemplateConfig b w') = (Some utc, nil).
Proof.
  intros Hvalid. exists (gob.put_config utc). split.
  - unfold clone.encodeTemplateConfig.
    by rewrite gob_facts.Encode_valid.
  - rewrite world_facts.decode_cases. cbn [fst].
    rewrite <- (List.app_nil_r (gob.put_config utc)).
    by rewrite gob_facts.Decode_put_config.
Qed.

Lemma codec_round_trip_witness :
  valid_config Examples.cfgA
  /\ exists b : bytes,
       fst (clone.encodeTemplateConfig Examples.cfgA Examples.w0) = (b, nil)
       /\ fst (clone.decodeTemplateConfig b Examples.w0)
          = (Some Examples.cfgA, nil).
Proof.
  assert (valid_config Examples.cfgA) as Hvalid.
  { unfold valid_config. repeat constructor; by apply bool_decide_unpack. }
  split; [exact Hvalid|].
  exact (codec_round_trip Examples.cfgA Examples.w0 Examples.w0 Hvalid).
Defined.

(** C8. Unknown-variant decode: a blob that reaches a descriptor whose
    variant tag is not registered makes [decodeTemplateConfig] fail with
    the decoder's error wrapped in a decoding error, and return no
    configuration, although the decoder had by then filled in the template
    id and the descriptors that precede the unknown one.  More generally
    [decodeTemplateConfig] never returns a configuration together with an
    error. *)
Theorem decode_unknown_variant (id : string) (count : N)
  (before : list Cloneable) (tag : string) (rest : bytes) (w : World) :
  Forall (fun r => typeName r ∈ clone.gobRegistry) before ->
  tag ∉ clone.gobRegistry ->
  length before < N.to_nat count ->
  let blob := blob_with_tag id count before tag rest in
  fst (clone.decodeTemplateConfig blob w)
  = (None, Some (Errorf ("error while decoding template config: "
                         ++ Error (gob.errNameNotRegistered tag))))
  /\ gob.Decode clone.gobRegistry blob uvm.zero
     = ({| UVMID := id; Resources := before |},
        Some (gob.errNameNotRegistered tag))
  /\ forall (b : bytes) (w' : World),
       snd (fst (clone.decodeTemplateConfig b w')) <> nil ->
       fst (fst (clone.decodeTemplateConfig b w')) = None.
Proof.
  intros Hbefore Htag Hlen blob.
  assert (gob.Decode clone.gobRegistry blob uvm.zero
          = ({| UVMID := id; Resources := before |},
             Some (gob.errNameNotRegistered tag))) as Hdec.
  { unfold blob, blob_with_tag, gob.Decode.
    rewrite gob_facts.get_put_string, gob_facts.get_put_uvarint.
    by rewrite gob_facts.get_resources_unregistered. }
  split; [|split; [exact Hdec|]].
  - rewrite world_facts.decode_cases. by rewrite Hdec.
  - intros b w'. rewrite world_facts.decode_cases.
    destruct (gob.Decode clone.gobRegistry b uvm.zero) as [utc [e|]];
      cbn [fst snd]; [done|].
    intros Herr. by destruct Herr.
Qed.

Lemma decode_unknown_variant_witness :
  fst (clone.decodeTemplateConfig
         (blob_with_tag "vm-c" 2 [Examples.share] "*uvm.Plan9Share" []) Examples.w0)
  = (None, Some (errorString
                   "error while decoding template config: gob: name not registered for interface: *uvm.Plan9Share")).
Proof.
  refine (proj1 (decode_unknown_variant "vm-c" 2 [Examples.share]
                   "*uvm.Plan9Share" [] Examples.w0 _ _ _)).
  - repeat constructor; by apply bool_decide_unpack.
  - by apply (bool_decide_unpack (_ ∉ _)).
  - vm_compute. lia.
Defined.

End Codec.

(* ===================================================================== *)
(** ** The template lifecycle: save, fetch, remove *)
(* ===================================================================== *)

Section Lifecycle.

Import Examples.

(** C1. No-duplicate-save: once [SaveTemplateConfig] has succeeded for a
    configuration, and whatever calls other than a removal of that id have
    been made since, a further [SaveTemplateConfig] for the same id fails,
    and the record persisted under the id (the bytes of the first
    configuration) is the same after the failed call as before it. *)
Theorem duplicate_save_rejected (c1 c2 : UVMTemplateConfig) (cs : list Call)
  (w : World) :
  UVMID c2 = UVMID c1 ->
  fst (clone.SaveTemplateConfig c1 w) = nil ->
  Forall (fun c => removes (UVMID c1) c = false) cs ->
  let w1 := snd (clone.SaveTemplateConfig c1 w) in
  let w2 := snd (run_calls cs w1) in
  let w3 := snd (clone.SaveTemplateConfig c2 w2) in
  fst (clone.SaveTemplateConfig c2 w2) <> nil
  /\ persisted w2 (UVMID c1) = Some (gob.put_config c1)
  /\ record_of (registry w3) clone.configRoot (UVMID c1)
     = record_of (registry w2) clone.configRoot (UVMID c1).
Proof.
  intros Hid Hok Hcs w1 w2 w3.
  apply world_facts.Save_ok_inv in Hok as (_ & _ & Hrec).
  fold w1 in Hrec.
  pose proof (world_facts.run_calls_preserve_record cs _ _ w1 Hcs Hrec) as Hrec2.
  fold w2 in Hrec2.
  split; [|split].
  - eapply world_facts.Save_rejects_existing. rewrite Hid. exact Hrec2.
  - unfold persisted, stored. rewrite Hrec2. apply lookup_singleton_eq.
  - rewrite Hrec2. by apply world_facts.Save_preserves_record.
Qed.

Lemma duplicate_save_rejected_witness :
  fst (clone.SaveTemplateConfig cfgA'
         (snd (run_calls [CallFetch "vm-a"; CallSave cfgB; CallRemove "vm-b"]
                 (snd (clone.SaveTemplateConfig cfgA w0)))))
  <> nil.
Proof.
  refine (proj1 (duplicate_save_rejected cfgA cfgA'
                   [CallFetch "vm-a"; CallSave cfgB; CallRemove "vm-b"] w0
                   _ _ _)).
  - reflexivity.
  - vm_compute. reflexivity.
  - repeat constructor.
Defined.

(** C3. The probe gates the save: when [loadPersistedUVMConfig] returns
    anything but a not-found error (no error at all, or another error),
    [SaveTemplateConfig] returns the rejection error and stops where the
    probe stopped: no encoding, no create, registry untouched.  When the
    probe returns a not-found error, the encoder is called next, and if it
    succeeds the store is opened for the create. *)
Theorem save_gated_by_probe (utc : UVMTemplateConfig) (w w1 : World)
  (b : bytes) (probe : error) :
  clone.loadPersistedUVMConfig (UVMID utc) w = ((b, probe), w1) ->
  (IsNotFoundError probe = false ->
     clone.SaveTemplateConfig utc w
     = (Some (Errorf ("parent VM(ID: " ++ UVMID utc
                      ++ ") config shouldn't exit in registry ("
                      ++ fmt_s probe ++ ")")), w1)
     /\ registry w1 = registry w
     /\ exists evs, trace w1 = trace w ++ evs
          /\ Forall (fun e => is_encode_or_store e = false) evs)
  /\ (IsNotFoundError probe = true ->
        exists err rest,
          trace (snd (clone.SaveTemplateConfig utc w))
          = trace w1 ++ EvGobEncode err :: rest
          /\ (err = nil ->
              exists oerr rest', rest = EvOpen clone.configRoot oerr :: rest')).
Proof.
  intros Hload.
  pose proof (world_facts.Save_cases utc w) as Hsave. cbv zeta in Hsave.
  pose proof (world_facts.load_registry (UVMID utc) w) as Hreg.
  pose proof (world_facts.load_trace (UVMID utc) w) as Htrace.
  rewrite Hload in Hsave, Hreg, Htrace. cbn [fst snd] in *.
  split; intros Hnf; rewrite Hnf in Hsave; cbn [negb] in Hsave.
  - by rewrite Hsave.
  - rewrite Hsave. clear Hsave. unfold clone.encodeTemplateConfig.
    destruct (gob.Encode clone.gobRegistry utc) as [buf [e|]];
      cbn [bind emit ret fst snd trace].
    + exists (Some e), []. by split.
    + destruct (world_facts.store_trace (UVMID utc) buf
                  (snd (emit (EvGobEncode nil) w1))) as (oerr & rest & Hst).
      exists nil, (EvOpen clone.configRoot oerr :: rest). split.
      * destruct (fst (clone.storePersistedUVMConfig _ _ _));
          cbn [snd]; unfold emit in Hst; cbn [snd trace] in Hst;
          rewrite Hst; by rewrite <- List.app_assoc.
      * intros _. by eexists _, _.
Qed.

Lemma save_gated_by_probe_witness :
  clone.SaveTemplateConfig cfgA' (snd (clone.SaveTemplateConfig cfgA w0))
  = (Some (errorString
             "parent VM(ID: vm-a) config shouldn't exit in registry (%!s(<nil>))"),
     snd (clone.loadPersistedUVMConfig "vm-a"
            (snd (clone.SaveTemplateConfig cfgA w0)))).
Proof.
  refine (proj1 (proj1 (save_gated_by_probe cfgA'
                          (snd (clone.SaveTemplateConfig cfgA w0))
                          (snd (clone.loadPersistedUVMConfig "vm-a"
                                  (snd (clone.SaveTemplateConfig cfgA w0))))
                          (gob.put_config cfgA) nil _) _)).
  - vm_compute. reflexivity.
  - reflexivity.
Defined.

(** C4. Fetch-after-save: after a successful [SaveTemplateConfig], and
    whatever calls other than a removal of that id have been made since,
    [FetchTemplateConfig] of the id, on a store that does not fail
    meanwhile, succeeds and returns the configuration that was saved. *)
Theorem fetch_after_save (utc : UVMTemplateConfig) (cs : list Call)
  (w : World) :
  fst (clone.SaveTemplateConfig utc w) = nil ->
  Forall (fun c => removes (UVMID utc) c = false) cs ->
  let w2 := snd (run_calls cs (snd (clone.SaveTemplateConfig utc w))) in
  calm 2 w2 ->
  fst (clone.FetchTemplateConfig (UVMID utc) w2) = (Some utc, nil).
Proof.
  intros Hok Hcs w2 Hcalm.
  apply world_facts.Save_ok_inv in Hok as (_ & Hvalid & Hrec).
  pose proof (world_facts.run_calls_preserve_record cs _ _ _ Hcs Hrec) as Hrec2.
  fold w2 in Hrec2.
  rewrite world_facts.Fetch_cases. cbv zeta.
  rewrite (world_facts.load_calm _ _ Hcalm).
  unfold persisted, stored. rewrite Hrec2, lookup_singleton_eq. cbn [fst snd].
  rewrite world_facts.decode_cases. cbn [fst snd].
  rewrite <- (List.app_nil_r (gob.put_config utc)).
  by rewrite gob_facts.Decode_put_config.
Qed.

Lemma fetch_after_save_witness :
  fst (clone.FetchTemplateConfig "vm-a"
         (snd (run_calls [CallSave cfgB; CallRemove "vm-b"]
                 (snd (clone.SaveTemplateConfig cfgA w0)))))
  = (Some cfgA, nil).
Proof.
  refine (fetch_after_save cfgA [CallSave cfgB; CallRemove "vm-b"] w0 _ _ _).
  - vm_compute. reflexivity.
  - repeat constructor.
  - vm_compute. constructor.
Defined.

(** C6, as the code has it.  Fetching an id that has no record, on a
    store that does not fail, fails; [loadPersistedUVMConfig] hands the
    not-found error itself to [FetchTemplateConfig], which returns a new
    plain error whose text is "failed to fetch encoded template config: "
    followed by the text of the not-found error.  The error returned to
    the caller only carries that text: [IsNotFoundError] does not hold of
    it.  The same holds right after [RemoveSavedTemplateConfig]. *)
Theorem fetch_absent_reports_text_only (id : string) (w : World) :
  (calm 2 w -> persisted w id = None ->
     fst (clone.loadPersistedUVMConfig id w) = ([], Some (NotFoundError id))
     /\ fst (clone.FetchTemplateConfig id w)
        = (None, Some (errorString
                         ("failed to fetch encoded template config: "
                          ++ Error (NotFoundError id))))
     /\ IsNotFoundError (snd (fst (clone.FetchTemplateConfig id w))) = false)
  /\ (calm 4 w ->
      fst (clone.FetchTemplateConfig id
             (snd (clone.RemoveSavedTemplateConfig id w)))
      = (None, Some (errorString
                       ("failed to fetch encoded template config: "
                        ++ Error (NotFoundError id))))).
Proof.
  assert (forall w', calm 2 w' -> persisted w' id = None ->
            fst (clone.loadPersistedUVMConfig id w') = ([], Some (NotFoundError id))
            /\ fst (clone.FetchTemplateConfig id w')
               = (None, Some (errorString
                                ("failed to fetch encoded template config: "
                                 ++ Error (NotFoundError id))))) as Habsent.
  { intros w' Hcalm Hnone.
    pose proof (world_facts.load_calm id w' Hcalm) as Hload.
    rewrite Hnone in Hload. split; [exact Hload|].
    rewrite world_facts.Fetch_cases. cbv zeta. by rewrite Hload. }
  split.
  - intros Hcalm Hnone. destruct (Habsent w Hcalm Hnone) as [Hload Hfetch].
    split; [exact Hload|]. split; [exact Hfetch|]. by rewrite Hfetch.
  - intros Hcalm. unfold clone.RemoveSavedTemplateConfig.
    destruct (world_facts.remove_calm id w) as [_ Hgone];
      [by eapply world_facts.calm_le; [|exact Hcalm]; lia|].
    destruct (world_facts.remove_faults id w) as (k & Hk & Hfaults).
    apply Habsent.
    + eapply world_facts.calm_drop; [|exact Hfaults].
      eapply world_facts.calm_le; [|exact Hcalm]. lia.
    + unfold persisted, stored. by rewrite Hgone.
Qed.

Lemma fetch_absent_reports_text_only_witness :
  fst (clone.FetchTemplateConfig "vm-a" w0)
  = (None, Some (errorString
                   "failed to fetch encoded template config: ID 'vm-a' was not found")).
Proof.
  refine (proj1 (proj2 (proj1 (fetch_absent_reports_text_only "vm-a" w0) _ _))).
  - apply world_facts.calm_nil.
  - vm_compute. reflexivity.
Defined.

(** C6, as the design document words it, fails: for an id without a
    record the error returned by [FetchTemplateConfig] is not recognisable
    as the not-found condition. *)
Lemma fetch_not_found_not_recognisable :
  ~ (forall (id : string) (w : World),
       persisted w id = None ->
       IsNotFoundError (snd (fst (clone.FetchTemplateConfig id w))) = true).
Proof.
  intros H. specialize (H "vm-a" w0 eq_refl). vm_compute in H. discriminate.
Qed.

(** C7. Idempotent removal: [RemoveSavedTemplateConfig] returns an error
    only if the underlying store reported that very error, and the error
    is not a not-found one; so on a store that does not fail it returns no
    error whether or not the record exists, leaves no record behind, and a
    second call right after it returns no error either. *)
Theorem remove_idempotent (id : string) (w : World) :
  (forall e, fst (clone.RemoveSavedTemplateConfig id w) = Some e ->
             IsNotFoundError (Some e) = false /\ Some e ∈ take 2 (faults w))
  /\ (calm 2 w ->
      fst (clone.RemoveSavedTemplateConfig id w) = nil
      /\ persisted (snd (clone.RemoveSavedTemplateConfig id w)) id = None)
  /\ (calm 4 w ->
      fst (clone.RemoveSavedTemplateConfig id
             (snd (clone.RemoveSavedTemplateConfig id w))) = nil).
Proof.
  unfold clone.RemoveSavedTemplateConfig. split; [|split].
  - intros e. apply world_facts.remove_error_inv.
  - intros Hcalm. destruct (world_facts.remove_calm id w Hcalm) as [Hok Hgone].
    split; [exact Hok|]. unfold persisted, stored. by rewrite Hgone.
  - intros Hcalm.
    destruct (world_facts.remove_faults id w) as (k & Hk & Hfaults).
    apply world_facts.remove_calm.
    eapply world_facts.calm_drop; [|exact Hfaults].
    eapply world_facts.calm_le; [|exact Hcalm]. lia.
Qed.

Lemma remove_idempotent_witness :
  fst (clone.RemoveSavedTemplateConfig "vm-a" w0) = nil
  /\ fst (clone.RemoveSavedTemplateConfig "vm-a"
            (snd (clone.SaveTemplateConfig cfgA w0))) = nil
  /\ fst (clone.RemoveSavedTemplateConfig "vm-a"
            (snd (clone.RemoveSavedTemplateConfig "vm-a"
                    (snd (clone.SaveTemplateConfig cfgA w0))))) = nil.
Proof.
  split; [|split].
  - refine (proj1 (proj1 (proj2 (remove_idempotent "vm-a" w0)) _)).
    apply world_facts.calm_nil.
  - refine (proj1 (proj1 (proj2 (remove_idempotent "vm-a"
                                   (snd (clone.SaveTemplateConfig cfgA w0)))) _)).
    vm_compute. constructor.
  - refine (proj2 (proj2 (remove_idempotent "vm-a"
                            (snd (clone.SaveTemplateConfig cfgA w0)))) _).
    vm_compute. constructor.
Defined.

(** C10. When opening the namespace fails with a not-found error,
    [RemoveSavedTemplateConfig] returns no error and makes no further call
    to the store: the world is the one that the failed [Open] left, with
    the registry as it was. *)
Theorem remove_missing_namespace (id : string) (w w1 : World) (e : errval) :
  regstate.Open clone.configRoot false w = (inr e, w1) ->
  IsNotFoundError (Some e) = true ->
  clone.RemoveSavedTemplateConfig id w = (nil, w1)
  /\ registry w1 = registry w
  /\ trace w1 = trace w ++ [EvOpen clone.configRoot (Some e)].
Proof.
  intros Hopen Hnf.
  unfold clone.RemoveSavedTemplateConfig, clone.removePersistedUVMConfig.
  unfold bind at 1. rewrite Hopen, Hnf. split; [reflexivity|].
  destruct w as [r fs tr]. world_facts.run_cases. by split.
Qed.

Lemma remove_missing_namespace_witness :
  clone.RemoveSavedTemplateConfig "vm-a" wNoNamespace
  = (nil, {| registry := ∅; faults := [];
             trace := [EvOpen "LateClone" (Some (NotFoundError "LateClone"))] |}).
Proof.
  refine (proj1 (remove_missing_namespace "vm-a" wNoNamespace _
                   (NotFoundError "LateClone") _ _)).
  - reflexivity.
  - reflexivity.
Defined.

End Lifecycle.

Section SaveErrors.

Import Examples.





End SaveErrors.

(* ===================================================================== *)
(** ** The save-as-template workflow *)
(* ===================================================================== *)

Section WorkflowFacts.

Context {V : Type} (uvm : shim.UtilityVM V).

(** C5. [saveAsTemplate] is the fail-fast run of the five steps (remove
    the NICs, close the GCS connection, generate the configuration, save
    it with [SaveTemplateConfig], mark the machine as a template) in that
    order: the first step that fails ends the run, and its error is what
    is returned.  In particular, when closing the GCS connection fails
    after the NICs have been removed, the error of the close is returned
    as it is, the machine is in the state the close left it in, and
    nothing else has been called: the trace has grown by the two calls
    only, and the registry and the pending store outcomes are untouched. *)
Theorem workflow_fail_fast (host : V) (w : World) :
  shim.saveAsTemplate uvm host w = shim.workflow_spec uvm host w
  /\ (exists evs,
        trace (snd (shim.saveAsTemplate uvm host w)) = trace w ++ evs
        /\ in_step_order evs = true)
  /\ forall (host1 host2 : V) (e : errval),
       shim.RemoveAllNICs uvm host = (nil, host1) ->
       shim.CloseGCSConnection uvm host1 = (Some e, host2) ->
       shim.saveAsTemplate uvm host w
       = ((Some e, host2),
          {| registry := registry w; faults := faults w;
             trace := trace w ++ [EvRemoveAllNICs nil;
                                  EvCloseGCSConnection (Some e)] |}).
Proof.
  split; [|split].
  - unfold shim.saveAsTemplate, shim.workflow_spec, shim.fail_fast,
      shim.step_detach, shim.step_sever, shim.step_generate,
      shim.step_persist, shim.step_mark, shim.lift_host, shim.host_call,
      bind, ret, emit.
    cbn [shim.flow_host shim.flow_world shim.flow_config].
    destruct (shim.RemoveAllNICs uvm host) as [[e1|] host1];
      cbn [id shim.flow_host shim.flow_world shim.flow_config]; [done|].
    destruct (shim.CloseGCSConnection uvm host1) as [[e2|] host2];
      cbn [id shim.flow_host shim.flow_world shim.flow_config]; [done|].
    destruct (shim.GenerateTemplateConfig uvm host2) as [[utc|e3] host3];
      cbn [shim.err_of shim.flow_host shim.flow_world shim.flow_config];
      [|done].
    destruct (clone.SaveTemplateConfig utc _) as [[e4|] w4];
      cbn [shim.flow_host shim.flow_world shim.flow_config]; [done|].
    destruct (shim.SaveAsTemplate uvm host3) as [[e5|] host5];
      cbn [id shim.flow_host shim.flow_world shim.flow_config]; done.
  - unfold shim.saveAsTemplate, shim.host_call, bind, ret, emit, in_step_order.
    destruct (shim.RemoveAllNICs uvm host) as [[e1|] host1];
      cbn [snd registry faults trace]; [by eexists|].
    destruct (shim.CloseGCSConnection uvm host1) as [[e2|] host2];
      cbn [snd registry faults trace];
      [rewrite <- List.app_assoc; by eexists|].
    destruct (shim.GenerateTemplateConfig uvm host2) as [[utc|e3] host3];
      cbn [snd registry faults trace shim.err_of];
      [|rewrite <- !List.app_assoc; by eexists].
    match goal with
    | |- context [clone.SaveTemplateConfig utc ?w3] =>
        destruct (world_facts.Save_trace_steps utc w3) as (evs4 & Ht4 & Hs4);
        destruct (clone.SaveTemplateConfig utc w3) as [[e4|] w4]
    end; cbn [snd registry faults trace] in *.
    + rewrite Ht4, <- !List.app_assoc. eexists. split; [reflexivity|].
      cbn [app map step_of_event].
      rewrite <- (List.app_nil_r (map step_of_event evs4)).
      change (nondecreasing (1 :: 2 :: 3 :: map step_of_event evs4 ++ []))
        with ((Nat.leb 1 2) && ((Nat.leb 2 3)
              && nondecreasing (3 :: map step_of_event evs4 ++ []))).
      rewrite world_facts.nondecreasing_persist; [done|lia|done|done].
    + destruct (shim.SaveAsTemplate uvm host3) as [e5 host5].
      assert (exists evs, trace w4 ++ [EvSaveAsTemplate e5] = trace w ++ evs
                /\ nondecreasing (map step_of_event evs) = true) as Hall.
      { rewrite Ht4, <- !List.app_assoc. eexists. split; [reflexivity|].
        cbn [app map step_of_event]. rewrite List.map_app.
        cbn [map step_of_event].
        change (nondecreasing (1 :: 2 :: 3 :: map step_of_event evs4 ++ [5]))
          with ((Nat.leb 1 2) && ((Nat.leb 2 3)
                && nondecreasing (3 :: map step_of_event evs4 ++ [5]))).
        rewrite world_facts.nondecreasing_persist; [done|lia|done|done]. }
      by destruct e5.
  - intros host1 host2 e Hdetach Hclose.
    unfold shim.saveAsTemplate, shim.host_call, bind, ret, emit.
    rewrite Hdetach. cbn [registry faults trace]. rewrite Hclose.
    cbn [registry faults trace]. by rewrite <- List.app_assoc.
Qed.

End WorkflowFacts.

Lemma workflow_fail_fast_witness :
  shim.saveAsTemplate Examples.stuckChannel 0 Examples.w0
  = ((Some (errorString "gcs: bridge closed"), 2),
     {| registry := ∅; faults := [];
        trace := [EvRemoveAllNICs nil;
                  EvCloseGCSConnection (Some (errorString "gcs: bridge closed"))] |}).
Proof.
  refine (proj2 (proj2 (workflow_fail_fast Examples.stuckChannel 0 Examples.w0))
            1 2 (errorString "gcs: bridge closed") _ _); reflexivity.
Defined.

(* ===================================================================== *)
(** ** Further facts about the persistence wrappers *)
(* ===================================================================== *)

Module wrapper_facts.
Import world_facts.

(** *** Replaying traces *)

Lemma handle_run_app (a b : list Event) :
  forall held : bool,
    handle_run held (a ++ b)
    = match handle_run held a with
      | Some held' => handle_run held' b
      | None => None
      end.
Proof.
  induction a as [|e a IH]; intros held; [reflexivity|].
  cbn [app handle_run].
  destruct e as [? [?|]| | | | | | | | | |]; destruct held; auto.
Qed.

Lemma handles_released_app (a b : list Event) :
  handles_released a -> handles_released b -> handles_released (a ++ b).
Proof.
  unfold handles_released. intros Ha Hb. by rewrite handle_run_app, Ha.
Qed.

Lemma adds_refl (P : list Event -> Prop) (w : World) : P [] -> adds P w w.
Proof. intros HP. exists []. by rewrite List.app_nil_r. Qed.

Lemma adds_trans (P : list Event -> Prop) (w1 w2 w3 : World) :
  (forall a b, P a -> P b -> P (a ++ b)) ->
  adds P w1 w2 -> adds P w2 w3 -> adds P w1 w3.
Proof.
  intros Happ (a & Ha & HPa) (b & Hb & HPb). exists (a ++ b).
  split; [|by apply Happ]. by rewrite Hb, Ha, List.app_assoc.
Qed.

Lemma load_handles (id : string) (w : World) :
  adds handles_released w (snd (clone.loadPersistedUVMConfig id w)).
Proof.
  destruct w as [r fs tr]. unfold adds. run_cases.
  all: rewrite <- ?List.app_assoc; eexists; split; [reflexivity|].
  all: reflexivity.
Qed.

Lemma store_handles (id : string) (b : bytes) (w : World) :
  adds handles_released w (snd (clone.storePersistedUVMConfig id b w)).
Proof.
  destruct w as [r fs tr]. unfold adds. run_cases.
  all: rewrite <- ?List.app_assoc; eexists; split; [reflexivity|].
  all: reflexivity.
Qed.

Lemma remove_handles (id : string) (w : World) :
  adds handles_released w (snd (clone.removePersistedUVMConfig id w)).
Proof.
  destruct w as [r fs tr]. unfold adds. run_cases.
  all: rewrite <- ?List.app_assoc; eexists; split; [reflexivity|].
  all: reflexivity.
Qed.

Lemma emit_adds (P : list Event -> Prop) (e : Event) (w : World) :
  P [e] -> adds P w (snd (emit e w)).
Proof. intros HP. by exists [e]. Qed.

Section Adds.

(** A property of call sequences that holds of what each wrapper and
    each codec call adds, and is kept by concatenation, holds of what the
    public operations add. *)
Context (P : list Event -> Prop).
Hypothesis P_nil : P [].
Hypothesis P_app : forall a b, P a -> P b -> P (a ++ b).
Hypothesis P_load : forall id w,
  adds P w (snd (clone.loadPersistedUVMConfig id w)).
Hypothesis P_store : forall id b w,
  adds P w (snd (clone.storePersistedUVMConfig id b w)).
Hypothesis P_remove : forall id w,
  adds P w (snd (clone.removePersistedUVMConfig id w)).
Hypothesis P_encode : forall err, P [EvGobEncode err].
Hypothesis P_decode : forall err, P [EvGobDecode err].

Lemma Save_adds (utc : UVMTemplateConfig) (w : World) :
  adds P w (snd (clone.SaveTemplateConfig utc w)).
Proof.
  rewrite Save_cases. cbv zeta.
  set (w1 := snd (clone.loadPersistedUVMConfig (UVMID utc) w)).
  assert (adds P w w1) as H1 by apply P_load.
  assert (adds P w (snd (clone.encodeTemplateConfig utc w1))) as H2.
  { eapply adds_trans; [done|exact H1|]. rewrite encode_world.
    by apply emit_adds. }
  destruct (negb _); cbn [snd]; [done|].
  destruct (snd (fst (clone.encodeTemplateConfig utc w1))); cbn [snd]; [done|].
  assert (adds P w (snd (clone.storePersistedUVMConfig (UVMID utc)
                           (fst (fst (clone.encodeTemplateConfig utc w1)))
                           (snd (clone.encodeTemplateConfig utc w1))))) as H3.
  { eapply adds_trans; [done|exact H2|]. apply P_store. }
  by destruct (fst (clone.storePersistedUVMConfig _ _ _)).
Qed.

Lemma Fetch_adds (id : string) (w : World) :
  adds P w (snd (clone.FetchTemplateConfig id w)).
Proof.
  rewrite Fetch_cases. cbv zeta.
  set (probe := clone.loadPersistedUVMConfig id w).
  assert (adds P w (snd probe)) as H1 by apply P_load.
  assert (adds P w (snd (clone.decodeTemplateConfig (fst (fst probe))
                           (snd probe)))) as H2.
  { eapply adds_trans; [done|exact H1|]. rewrite decode_cases. cbn [snd].
    by apply emit_adds. }
  destruct (snd (fst probe)); cbn [snd]; [done|].
  by destruct (snd (fst (clone.decodeTemplateConfig _ _))).
Qed.

Lemma run_call_adds (c : Call) (w : World) : adds P w (snd (run_call c w)).
Proof.
  destruct c as [utc|id|id]; unfold run_call, bind, ret.
  - pose proof (Save_adds utc w) as H.
    by destruct (clone.SaveTemplateConfig utc w).
  - pose proof (Fetch_adds id w) as H.
    by destruct (clone.FetchTemplateConfig id w).
  - pose proof (P_remove id w) as H.
    unfold clone.RemoveSavedTemplateConfig.
    by destruct (clone.removePersistedUVMConfig id w).
Qed.

Lemma run_calls_adds (cs : list Call) :
  forall w : World, adds P w (snd (run_calls cs w)).
Proof.
  induction cs as [|c cs IH]; intros w; [by apply adds_refl|].
  cbn [run_calls]. unfold bind.
  pose proof (run_call_adds c w) as H.
  destruct (run_call c w) as [[] w1]. cbn [snd] in H.
  eapply adds_trans; [done|exact H|apply IH].
Qed.

End Adds.

(** *** Failure leaves the registry as it was *)

Lemma store_fail_registry (id : string) (b : bytes) (w : World) :
  fst (clone.storePersistedUVMConfig id b w) <> nil ->
  registry (snd (clone.storePersistedUVMConfig id b w)) = registry w.
Proof. destruct w as [r fs tr]. intros Hfail. by run_cases. Qed.

Lemma remove_fail_registry (id : string) (w : World) :
  fst (clone.removePersistedUVMConfig id w) <> nil ->
  registry (snd (clone.removePersistedUVMConfig id w)) = registry w.
Proof. destruct w as [r fs tr]. intros Hfail. by run_cases. Qed.

(** *** Each wrapper touches the record of its own id only *)

Lemma store_frame (id id' : string) (b : bytes) (w : World) :
  id' <> id ->
  record_of (registry (snd (clone.storePersistedUVMConfig id b w)))
    clone.configRoot id'
  = record_of (registry w) clone.configRoot id'.
Proof.
  destruct w as [r fs tr]. intros Hne. run_cases; try done.
  all: by rewrite record_of_insert_ne.
Qed.

Lemma remove_only_deletes (id id' : string) (w : World)
  (rec : gmap string bytes) :
  record_of (registry (snd (clone.removePersistedUVMConfig id w)))
    clone.configRoot id' = Some rec ->
  record_of (registry w) clone.configRoot id' = Some rec.
Proof.
  destruct w as [r fs tr]. run_cases; try done.
  all: destruct (decide (id = id')) as [->|Hne];
    [by rewrite record_of_delete_eq|by rewrite record_of_delete_ne].
Qed.

(** *** What a successful load has read *)

Lemma load_ok_inv (id : string) (b : bytes) (w : World) :
  fst (clone.loadPersistedUVMConfig id w) = (b, nil) ->
  persisted w id = Some b.
Proof.
  destruct w as [r fs tr]. unfold persisted, stored. intros Hok.
  run_cases; congruence.
Qed.

(** A wrapper that reports an error returns no bytes with it. *)
Lemma load_error_bare (id : string) (w : World) :
  snd (fst (clone.loadPersistedUVMConfig id w)) <> nil ->
  fst (fst (clone.loadPersistedUVMConfig id w)) = [].
Proof. destruct w as [r fs tr]. intros Herr. by run_cases. Qed.

(** *** How many outcomes of the store a wrapper consumes *)

Lemma consumes_trans (n m : nat) (w1 w2 w3 : World) :
  consumes n w1 w2 -> consumes m w2 w3 -> consumes (n + m) w1 w3.
Proof.
  intros (k1 & Hk1 & H1) (k2 & Hk2 & H2). exists (k1 + k2).
  split; [lia|]. by rewrite H2, H1, drop_drop.
Qed.

Lemma consumes_le (n m : nat) (w w' : World) :
  n <= m -> consumes n w w' -> consumes m w w'.
Proof. intros Hle (k & Hk & H). exists k. split; [lia|done]. Qed.

Lemma consumes_calm (n m : nat) (w w' : World) :
  consumes n w w' -> calm (m + n) w -> calm m w'.
Proof.
  intros (k & Hk & H) Hcalm. eapply calm_drop; [|exact H].
  eapply calm_le; [|exact Hcalm]. lia.
Qed.

Lemma load_consumes (id : string) (w : World) :
  consumes 2 w (snd (clone.loadPersistedUVMConfig id w)).
Proof.
  destruct w as [r fs tr]. unfold consumes. run_cases.
  all: subst; first [ exists 0; split; [lia|reflexivity]
                    | exists 1; split; [lia|reflexivity]
                    | exists 2; split; [lia|reflexivity] ].
Qed.

Lemma store_consumes (id : string) (b : bytes) (w : World) :
  consumes 2 w (snd (clone.storePersistedUVMConfig id b w)).
Proof.
  destruct w as [r fs tr]. unfold consumes. run_cases.
  all: subst; first [ exists 0; split; [lia|reflexivity]
                    | exists 1; split; [lia|reflexivity]
                    | exists 2; split; [lia|reflexivity] ].
Qed.

Lemma store_calm (id : string) (b : bytes) (w : World) :
  calm 2 w ->
  (fst (clone.storePersistedUVMConfig id b w) = nil
   <-> record_of (registry w) clone.configRoot id = None).
Proof.
  intros Hcalm. calm_cases w Hcalm; run_cases; try done.
  all: split; congruence.
Qed.

Lemma consumes_nil (n : nat) (w w' : World) :
  consumes n w w' -> faults w = [] -> faults w' = [].
Proof. intros (k & _ & H) Hnil. by rewrite H, Hnil, drop_nil. Qed.

Lemma calm_of_faults_nil (n : nat) (w : World) : faults w = [] -> calm n w.
Proof. destruct w as [r fs tr]. cbn. intros ->. apply calm_nil. Qed.

Lemma encode_consumes (utc : UVMTemplateConfig) (w : World) :
  consumes 0 w (snd (clone.encodeTemplateConfig utc w)).
Proof. rewrite encode_world. by exists 0. Qed.

Lemma decode_consumes (b : bytes) (w : World) :
  consumes 0 w (snd (clone.decodeTemplateConfig b w)).
Proof. rewrite decode_cases. by exists 0. Qed.

Lemma Save_consumes (utc : UVMTemplateConfig) (w : World) :
  consumes 4 w (snd (clone.SaveTemplateConfig utc w)).
Proof.
  rewrite Save_cases. cbv zeta.
  set (w1 := snd (clone.loadPersistedUVMConfig (UVMID utc) w)).
  assert (consumes 2 w w1) as H1 by apply load_consumes.
  assert (consumes 2 w (snd (clone.encodeTemplateConfig utc w1))) as H2.
  { apply (consumes_trans 2 0 w w1); [done|apply encode_consumes]. }
  destruct (negb _); cbn [snd]; [by eapply consumes_le; [|exact H1]; lia|].
  destruct (snd (fst (clone.encodeTemplateConfig utc w1))); cbn [snd];
    [by eapply consumes_le; [|exact H2]; lia|].
  assert (consumes 4 w (snd (clone.storePersistedUVMConfig (UVMID utc)
                              (fst (fst (clone.encodeTemplateConfig utc w1)))
                              (snd (clone.encodeTemplateConfig utc w1))))) as H3.
  { apply (consumes_trans 2 2 w _ _ H2), store_consumes. }
  by destruct (fst (clone.storePersistedUVMConfig _ _ _)).
Qed.

Lemma remove_consumes (id : string) (w : World) :
  consumes 2 w (snd (clone.removePersistedUVMConfig id w)).
Proof. apply remove_faults. Qed.

(** *** Saving *)

Lemma Save_fail_registry (utc : UVMTemplateConfig) (w : World) :
  fst (clone.SaveTemplateConfig utc w) <> nil ->
  registry (snd (clone.SaveTemplateConfig utc w)) = registry w.
Proof.
  rewrite Save_cases. cbv zeta.
  destruct (negb _); cbn [fst snd]; [intros _; apply load_registry|].
  destruct (snd (fst (clone.encodeTemplateConfig _ _))); cbn [fst snd];
    [intros _; by rewrite encode_registry, load_registry|].
  destruct (fst (clone.storePersistedUVMConfig _ _ _)) eqn:Hsto;
    cbn [fst snd]; [|done].
  intros _. rewrite store_fail_registry by by rewrite Hsto.
  by rewrite encode_registry, load_registry.
Qed.

Lemma Save_frame (utc : UVMTemplateConfig) (id : string) (w : World) :
  UVMID utc <> id ->
  record_of (registry (snd (clone.SaveTemplateConfig utc w)))
    clone.configRoot id
  = record_of (registry w) clone.configRoot id.
Proof.
  intros Hne. rewrite Save_cases. cbv zeta.
  destruct (negb _); cbn [snd]; [by rewrite load_registry|].
  destruct (snd (fst (clone.encodeTemplateConfig _ _))); cbn [snd];
    [by rewrite encode_registry, load_registry|].
  destruct (fst (clone.storePersistedUVMConfig _ _ _)); cbn [snd];
    rewrite store_frame by done; by rewrite encode_registry, load_registry.
Qed.

Lemma Save_calm_iff (utc : UVMTemplateConfig) (w : World) :
  calm 4 w ->
  (fst (clone.SaveTemplateConfig utc w) = nil
   <-> valid_config utc /\ absent w (UVMID utc)).
Proof.
  intros Hcalm. split.
  { intros Hok. apply Save_ok_inv in Hok as (Hnone & Hvalid & _). by split. }
  intros [Hvalid Habsent]. rewrite Save_cases. cbv zeta.
  assert (calm 2 w) as Hcalm2 by (eapply calm_le; [|exact Hcalm]; lia).
  pose proof (load_calm (UVMID utc) w Hcalm2) as Hload.
  assert (persisted w (UVMID utc) = None) as Hnone.
  { unfold persisted, stored. unfold absent in Habsent. by rewrite Habsent. }
  rewrite Hnone in Hload.
  set (w1 := snd (clone.loadPersistedUVMConfig (UVMID utc) w)) in *.
  assert (calm 2 w1) as Hcalm1.
  { eapply (consumes_calm 2 2); [apply load_consumes|exact Hcalm]. }
  rewrite Hload. cbn [fst snd IsNotFoundError negb].
  assert (fst (clone.encodeTemplateConfig utc w1) = (gob.put_config utc, nil))
    as Henc.
  { unfold clone.encodeTemplateConfig. by rewrite gob_facts.Encode_valid. }
  rewrite Henc. cbn [fst snd].
  set (w2 := snd (clone.encodeTemplateConfig utc w1)).
  assert (calm 2 w2) as Hcalm2'.
  { eapply (consumes_calm 0 2); [apply encode_consumes|exact Hcalm1]. }
  assert (fst (clone.storePersistedUVMConfig (UVMID utc) (gob.put_config utc) w2)
          = nil) as Hsto.
  { apply store_calm; [done|]. unfold w2, w1.
    by rewrite encode_registry, load_registry. }
  by rewrite Hsto.
Qed.

(** Whatever is persisted after a save was there before, or is the
    encoding of the configuration just saved. *)
Lemma Save_persisted_inv (utc : UVMTemplateConfig) (id : string) (b : bytes)
  (w : World) :
  persisted (snd (clone.SaveTemplateConfig utc w)) id = Some b ->
  persisted w id = Some b
  \/ (id = UVMID utc /\ valid_config utc /\ b = gob.put_config utc).
Proof.
  unfold persisted, stored.
  destruct (fst (clone.SaveTemplateConfig utc w)) as [e|] eqn:Hres.
  { rewrite Save_fail_registry by by rewrite Hres. by left. }
  destruct (decide (UVMID utc = id)) as [<-|Hne].
  - apply Save_ok_inv in Hres as (_ & Hvalid & Hrec). rewrite Hrec.
    rewrite lookup_singleton_eq. intros [= <-]. by right.
  - rewrite Save_frame by done. by left.
Qed.

Lemma remove_persisted_inv (id id' : string) (b : bytes) (w : World) :
  persisted (snd (clone.removePersistedUVMConfig id w)) id' = Some b ->
  persisted w id' = Some b.
Proof.
  unfold persisted, stored.
  destruct (record_of (registry (snd _)) _ _) as [rec|] eqn:Hrec; [|done].
  apply remove_only_deletes in Hrec. by rewrite Hrec.
Qed.

(** *** Reading *)

Lemma load_no_write (id : string) (w : World) :
  adds (Forall (fun e => is_write e = false)) w
    (snd (clone.loadPersistedUVMConfig id w)).
Proof.
  destruct w as [r fs tr]. unfold adds. run_cases.
  all: rewrite <- ?List.app_assoc; eexists; split; [reflexivity|].
  all: by repeat constructor.
Qed.

Lemma Fetch_consumes (id : string) (w : World) :
  consumes 2 w (snd (clone.FetchTemplateConfig id w)).
Proof.
  rewrite Fetch_cases. cbv zeta.
  set (probe := clone.loadPersistedUVMConfig id w).
  assert (consumes 2 w (snd probe)) as H1 by apply load_consumes.
  assert (consumes 2 w (snd (clone.decodeTemplateConfig (fst (fst probe))
                               (snd probe)))) as H2.
  { apply (consumes_trans 2 0 w _ _ H1), decode_consumes. }
  destruct (snd (fst probe)); cbn [snd]; [done|].
  by destruct (snd (fst (clone.decodeTemplateConfig _ _))).
Qed.

Lemma Fetch_after_Save (utc : UVMTemplateConfig) (w : World) :
  fst (clone.SaveTemplateConfig utc w) = nil ->
  calm 2 (snd (clone.SaveTemplateConfig utc w)) ->
  fst (clone.FetchTemplateConfig (UVMID utc) (snd (clone.SaveTemplateConfig utc w)))
  = (Some utc, nil).
Proof.
  intros Hok Hcalm. apply Save_ok_inv in Hok as (_ & Hvalid & Hrec).
  rewrite Fetch_cases. cbv zeta. rewrite (load_calm _ _ Hcalm).
  unfold persisted, stored. rewrite Hrec, lookup_singleton_eq. cbn [fst snd].
  rewrite decode_cases. cbn [fst snd].
  rewrite <- (List.app_nil_r (gob.put_config utc)).
  by rewrite gob_facts.Decode_put_config.
Qed.

(** *** Well-formed stores *)

Lemma store_wf_empty (w : World) : registry w = ∅ -> store_wf w.
Proof.
  intros Hempty id b. unfold persisted, stored, record_of.
  rewrite Hempty. unfold lookup_total, map_lookup_total.
  rewrite lookup_empty. cbn [default].
  change (@inhabitant (gmap string (gmap string bytes)) _)
    with (∅ : gmap string (gmap string bytes)).
  by rewrite lookup_empty.
Qed.

Lemma run_call_wf (c : Call) (w : World) :
  store_wf w -> store_wf (snd (run_call c w)).
Proof.
  intros Hwf id b. destruct c as [utc|id'|id']; unfold run_call, bind, ret.
  - pose proof (Save_persisted_inv utc id b w) as H.
    destruct (clone.SaveTemplateConfig utc w) as [? w']. cbn [snd] in *.
    intros Hb. destruct (H Hb) as [Hold|(-> & Hvalid & ->)]; [by apply Hwf|].
    by exists utc.
  - pose proof (Fetch_registry id' w) as H.
    destruct (clone.FetchTemplateConfig id' w) as [? w']. cbn [snd] in *.
    unfold persisted, stored. rewrite H. apply Hwf.
  - pose proof (remove_persisted_inv id' id b w) as H.
    unfold clone.RemoveSavedTemplateConfig.
    destruct (clone.removePersistedUVMConfig id' w) as [? w']. cbn [snd] in *.
    intros Hb. by apply Hwf, H.
Qed.

Lemma run_calls_wf (cs : list Call) :
  forall w : World, store_wf w -> store_wf (snd (run_calls cs w)).
Proof.
  induction cs as [|c cs IH]; intros w Hwf; [done|].
  cbn [run_calls]. unfold bind.
  pose proof (run_call_wf c w Hwf) as H.
  destruct (run_call c w) as [[] w1]. by apply IH.
Qed.

Lemma Save_handles (utc : UVMTemplateConfig) (w : World) :
  adds handles_released w (snd (clone.SaveTemplateConfig utc w)).
Proof.
  apply Save_adds; try reflexivity.
  - apply handles_released_app.
  - apply load_handles.
  - apply store_handles.
Qed.

End wrapper_facts.

(* ===================================================================== *)
(** ** Further properties of the template lifecycle *)
(* ===================================================================== *)

Section LifecycleExtras.

Import Examples.

(** X1. Handle discipline.  Whatever sequence of [SaveTemplateConfig],
    [FetchTemplateConfig] and [RemoveSavedTemplateConfig] calls is made,
    and whatever the store reports, the calls recorded follow the handle
    protocol: [Get], [Create] and [Remove] are made only on a handle that
    a successful [Open] returned, at most one handle is held at a time,
    and every handle has been closed when the calls return. *)
Theorem calls_release_handles (cs : list Call) (w : World) :
  adds handles_released w (snd (run_calls cs w)).
Proof.
  apply wrapper_facts.run_calls_adds.
  - reflexivity.
  - apply wrapper_facts.handles_released_app.
  - apply wrapper_facts.load_handles.
  - apply wrapper_facts.store_handles.
  - apply wrapper_facts.remove_handles.
  - reflexivity.
  - reflexivity.
Qed.

(** X2. [FetchTemplateConfig] only reads: whatever it returns, it makes
    no [Create] and no [Remove] call, and the registry is as before. *)
Theorem fetch_never_writes (id : string) (w : World) :
  registry (snd (clone.FetchTemplateConfig id w)) = registry w
  /\ adds (Forall (fun e => is_write e = false)) w
       (snd (clone.FetchTemplateConfig id w)).
Proof.
  split; [apply world_facts.Fetch_registry|].
  rewrite world_facts.Fetch_cases. cbv zeta.
  set (probe := clone.loadPersistedUVMConfig id w).
  pose proof (wrapper_facts.load_no_write id w) as H1. fold probe in H1.
  assert (adds (Forall (fun e => is_write e = false)) w
            (snd (clone.decodeTemplateConfig (fst (fst probe)) (snd probe))))
    as H2.
  { eapply wrapper_facts.adds_trans; [|exact H1|].
    - intros a b Ha Hb. apply Forall_app. by split.
    - rewrite world_facts.decode_cases. cbn [snd].
      apply wrapper_facts.emit_adds. by repeat constructor. }
  destruct (snd (fst probe)); cbn [snd]; [done|].
  by destruct (snd (fst (clone.decodeTemplateConfig _ _))).
Qed.

(** X3. A [SaveTemplateConfig] that returns an error has written nothing:
    the registry is as it was before the call. *)
Theorem failed_save_writes_nothing (utc : UVMTemplateConfig) (w : World) :
  fst (clone.SaveTemplateConfig utc w) <> nil ->
  registry (snd (clone.SaveTemplateConfig utc w)) = registry w.
Proof. apply wrapper_facts.Save_fail_registry. Qed.

Lemma failed_save_writes_nothing_witness :
  registry (snd (clone.SaveTemplateConfig cfgA wDenied)) = registry wDenied.
Proof.
  refine (failed_save_writes_nothing cfgA wDenied _).
  vm_compute. discriminate.
Defined.

(** X4. A configuration with a resource descriptor of a type that [init]
    has not registered is never saved: [SaveTemplateConfig] returns an
    error and the registry is as before. *)
Theorem invalid_config_never_saved (utc : UVMTemplateConfig) (w : World) :
  ~ valid_config utc ->
  fst (clone.SaveTemplateConfig utc w) <> nil
  /\ registry (snd (clone.SaveTemplateConfig utc w)) = registry w.
Proof.
  intros Hinvalid.
  assert (fst (clone.SaveTemplateConfig utc w) <> nil) as Hfail.
  { intros Hok. apply world_facts.Save_ok_inv in Hok as (_ & Hvalid & _).
    by apply Hinvalid. }
  split; [exact Hfail|]. by apply wrapper_facts.Save_fail_registry.
Qed.

Lemma invalid_config_never_saved_witness :
  fst (clone.SaveTemplateConfig cfgBad w0) <> nil
  /\ registry (snd (clone.SaveTemplateConfig cfgBad w0)) = registry w0.
Proof.
  refine (invalid_config_never_saved cfgBad w0 _).
  unfold valid_config. by apply (bool_decide_unpack (¬ _)).
Defined.

(** X5. On a store that reports no failure for the four calls of a save
    ([Open], [Get], [Open], [Create]), [SaveTemplateConfig] succeeds
    exactly when the configuration is valid and no record is kept for its
    id. *)
Theorem save_succeeds_iff (utc : UVMTemplateConfig) (w : World) :
  calm 4 w ->
  (fst (clone.SaveTemplateConfig utc w) = nil
   <-> valid_config utc /\ absent w (UVMID utc)).
Proof. apply wrapper_facts.Save_calm_iff. Qed.

Lemma save_succeeds_iff_witness :
  fst (clone.SaveTemplateConfig cfgA w0) = nil
  <-> valid_config cfgA /\ absent w0 (UVMID cfgA).
Proof.
  refine (save_succeeds_iff cfgA w0 _). apply world_facts.calm_nil.
Defined.

(** X6. Each public operation leaves the records of all other templates
    as they are, whether it succeeds or fails. *)
Theorem operations_touch_own_id (c : Call) (id : string) (w : World) :
  call_id c <> id ->
  record_of (registry (snd (run_call c w))) clone.configRoot id
  = record_of (registry w) clone.configRoot id.
Proof.
  intros Hne. destruct c as [utc|id'|id']; unfold run_call, bind, ret;
    cbn [call_id] in Hne.
  - pose proof (wrapper_facts.Save_frame utc id w Hne) as H.
    by destruct (clone.SaveTemplateConfig utc w).
  - pose proof (world_facts.Fetch_registry id' w) as H.
    destruct (clone.FetchTemplateConfig id' w) as [? w']. cbn [snd] in *.
    by rewrite H.
  - pose proof (world_facts.Remove_preserves_other id id' w Hne) as H.
    by destruct (clone.RemoveSavedTemplateConfig id' w).
Qed.

Lemma operations_touch_own_id_witness :
  record_of (registry (snd (run_call (CallRemove "vm-b")
                              (snd (clone.SaveTemplateConfig cfgA w0)))))
    clone.configRoot "vm-a"
  = record_of (registry (snd (clone.SaveTemplateConfig cfgA w0)))
      clone.configRoot "vm-a".
Proof.
  refine (operations_touch_own_id (CallRemove "vm-b") "vm-a" _ _).
  cbn. discriminate.
Defined.

(** X7. A [RemoveSavedTemplateConfig] that returns an error has deleted
    nothing: the registry is as it was before the call. *)
Theorem failed_remove_deletes_nothing (id : string) (w : World) :
  fst (clone.RemoveSavedTemplateConfig id w) <> nil ->
  registry (snd (clone.RemoveSavedTemplateConfig id w)) = registry w.
Proof. apply wrapper_facts.remove_fail_registry. Qed.

Lemma failed_remove_deletes_nothing_witness :
  registry (snd (clone.RemoveSavedTemplateConfig "vm-a"
                   {| registry := registry (snd (clone.SaveTemplateConfig cfgA w0));
                      faults := [nil; Some accessDenied]; trace := [] |}))
  = registry (snd (clone.SaveTemplateConfig cfgA w0)).
Proof.
  refine (failed_remove_deletes_nothing "vm-a"
            {| registry := registry (snd (clone.SaveTemplateConfig cfgA w0));
               faults := [nil; Some accessDenied]; trace := [] |} _).
  vm_compute. discriminate.
Defined.

(** X8. Well-formedness of the store is an invariant of the package: if
    every persisted blob is the encoding of a valid configuration kept
    under its own id, this is still so after any sequence of
    [SaveTemplateConfig], [FetchTemplateConfig] and
    [RemoveSavedTemplateConfig] calls, whatever the store reports. *)
Theorem store_stays_well_formed (cs : list Call) (w : World) :
  store_wf w -> store_wf (snd (run_calls cs w)).
Proof. apply wrapper_facts.run_calls_wf. Qed.

Lemma store_stays_well_formed_witness :
  store_wf (snd (run_calls [CallSave cfgA; CallSave cfgBad; CallRemove "vm-b";
                            CallSave cfgB] wDenied)).
Proof.
  refine (store_stays_well_formed _ wDenied _).
  by apply wrapper_facts.store_wf_empty.
Defined.

(** X9. On a well-formed store [FetchTemplateConfig] never fails at the
    decoding stage: either it returns a valid configuration, whose id is
    the id asked for and whose encoding is the blob persisted under that
    id, or the load failed and the error returned is the fetch-stage
    error built from the load error. *)
Theorem fetch_from_well_formed_store (id : string) (w : World) :
  store_wf w ->
  (exists utc,
     fst (clone.FetchTemplateConfig id w) = (Some utc, nil)
     /\ UVMID utc = id /\ valid_config utc
     /\ persisted w id = Some (gob.put_config utc))
  \/ (exists e,
        snd (fst (clone.loadPersistedUVMConfig id w)) = Some e
        /\ fst (clone.FetchTemplateConfig id w)
           = (None, Some (errorString
                            ("failed to fetch encoded template config: "
                             ++ Error e)))).
Proof.
  intros Hwf. rewrite world_facts.Fetch_cases. cbv zeta.
  destruct (clone.loadPersistedUVMConfig id w) as [[b [e|]] w1] eqn:Hload;
    cbn [fst snd].
  { right. by exists e. }
  left. pose proof (wrapper_facts.load_ok_inv id b w) as Hb.
  rewrite Hload in Hb. specialize (Hb eq_refl).
  destruct (Hwf id b Hb) as (utc & Hvalid & Hid & ->).
  exists utc. split; [|done].
  rewrite world_facts.decode_cases. cbn [fst snd].
  rewrite <- (List.app_nil_r (gob.put_config utc)).
  by rewrite gob_facts.Decode_put_config.
Qed.

Lemma fetch_from_well_formed_store_witness :
  (exists utc,
     fst (clone.FetchTemplateConfig "vm-a"
            (snd (run_calls [CallSave cfgA] w0))) = (Some utc, nil)
     /\ UVMID utc = "vm-a" /\ valid_config utc
     /\ persisted (snd (run_calls [CallSave cfgA] w0)) "vm-a"
        = Some (gob.put_config utc))
  \/ (exists e,
        snd (fst (clone.loadPersistedUVMConfig "vm-a"
                    (snd (run_calls [CallSave cfgA] w0)))) = Some e
        /\ fst (clone.FetchTemplateConfig "vm-a"
                  (snd (run_calls [CallSave cfgA] w0)))
           = (None, Some (errorString
                            ("failed to fetch encoded template config: "
                             ++ Error e)))).
Proof.
  refine (fetch_from_well_formed_store "vm-a"
            (snd (run_calls [CallSave cfgA] w0)) _).
  apply wrapper_facts.run_calls_wf. by apply wrapper_facts.store_wf_empty.
Defined.

(** X10. The life cycle closes: on a store that reports no failure, and
    with no record kept for the id, saving a valid configuration, removing
    it, and saving another valid configuration under the same id all
    succeed, and a fetch then returns the second configuration. *)
Theorem save_remove_save_cycle (c1 c2 : UVMTemplateConfig) (w : World) :
  faults w = [] ->
  valid_config c1 -> valid_config c2 ->
  UVMID c2 = UVMID c1 ->
  absent w (UVMID c1) ->
  let w1 := snd (clone.SaveTemplateConfig c1 w) in
  let w2 := snd (clone.RemoveSavedTemplateConfig (UVMID c1) w1) in
  let w3 := snd (clone.SaveTemplateConfig c2 w2) in
  fst (clone.SaveTemplateConfig c1 w) = nil
  /\ fst (clone.RemoveSavedTemplateConfig (UVMID c1) w1) = nil
  /\ fst (clone.SaveTemplateConfig c2 w2) = nil
  /\ fst (clone.FetchTemplateConfig (UVMID c1) w3) = (Some c2, nil).
Proof.
  intros Hf Hv1 Hv2 Hid Habs w1 w2 w3.
  assert (fst (clone.SaveTemplateConfig c1 w) = nil) as Hs1.
  { apply wrapper_facts.Save_calm_iff;
      [by apply wrapper_facts.calm_of_faults_nil|done]. }
  assert (faults w1 = []) as Hf1.
  { eapply wrapper_facts.consumes_nil; [apply wrapper_facts.Save_consumes|done]. }
  destruct (world_facts.remove_calm (UVMID c1) w1) as [Hr Hgone];
    [by apply wrapper_facts.calm_of_faults_nil|].
  assert (faults w2 = []) as Hf2.
  { eapply wrapper_facts.consumes_nil;
      [apply wrapper_facts.remove_consumes|done]. }
  assert (fst (clone.SaveTemplateConfig c2 w2) = nil) as Hs2.
  { apply wrapper_facts.Save_calm_iff;
      [by apply wrapper_facts.calm_of_faults_nil|].
    split; [done|]. unfold absent. by rewrite Hid. }
  assert (faults w3 = []) as Hf3.
  { eapply wrapper_facts.consumes_nil; [apply wrapper_facts.Save_consumes|done]. }
  repeat split; try done.
  rewrite <- Hid. apply wrapper_facts.Fetch_after_Save; [done|].
  by apply wrapper_facts.calm_of_faults_nil.
Qed.

Lemma save_remove_save_cycle_witness :
  fst (clone.FetchTemplateConfig "vm-a"
         (snd (clone.SaveTemplateConfig cfgA'
                 (snd (clone.RemoveSavedTemplateConfig "vm-a"
                         (snd (clone.SaveTemplateConfig cfgA w0)))))))
  = (Some cfgA', nil).
Proof.
  refine (proj2 (proj2 (proj2 (save_remove_save_cycle cfgA cfgA' w0 _ _ _ _ _)))).
  - reflexivity.
  - unfold valid_config. by apply (bool_decide_unpack (Forall _ _)).
  - unfold valid_config. by apply (bool_decide_unpack (Forall _ _)).
  - reflexivity.
  - reflexivity.
Defined.

(** X11. [FetchTemplateConfig] returns a configuration exactly when it
    returns no error. *)
Theorem fetch_result_exclusive (id : string) (w : World) :
  fst (fst (clone.FetchTemplateConfig id w)) = None
  <-> snd (fst (clone.FetchTemplateConfig id w)) <> nil.
Proof.
  rewrite world_facts.Fetch_cases. cbv zeta.
  destruct (snd (fst (clone.loadPersistedUVMConfig id w))); cbn [fst snd];
    [done|].
  rewrite world_facts.decode_cases. cbn [fst snd].
  destruct (gob.Decode _ _ _) as [utc [e|]]; cbn [fst snd]; [done|].
  split; [done|]. intros H. by destruct H.
Qed.

(** X12. The rejection of a duplicate: when a blob is persisted under the
    id and the store reports no failure during the probe, the probe
    returns no error, and [SaveTemplateConfig] formats that nil error into
    its message. *)
Theorem duplicate_save_message (utc : UVMTemplateConfig) (b : bytes)
  (w : World) :
  calm 2 w ->
  persisted w (UVMID utc) = Some b ->
  fst (clone.SaveTemplateConfig utc w)
  = Some (errorString ("parent VM(ID: " ++ UVMID utc
                       ++ ") config shouldn't exit in registry (%!s(<nil>))")).
Proof.
  intros Hcalm Hb. rewrite world_facts.Save_cases. cbv zeta.
  rewrite (world_facts.load_calm _ _ Hcalm), Hb. reflexivity.
Qed.

Lemma duplicate_save_message_witness :
  fst (clone.SaveTemplateConfig cfgA' (snd (clone.SaveTemplateConfig cfgA w0)))
  = Some (errorString
            "parent VM(ID: vm-a) config shouldn't exit in registry (%!s(<nil>))").
Proof.
  refine (duplicate_save_message cfgA' (gob.put_config cfgA)
            (snd (clone.SaveTemplateConfig cfgA w0)) _ _).
  - vm_compute. constructor.
  - vm_compute. reflexivity.
Defined.

(** X13. What [storePersistedUVMConfig] stores, [loadPersistedUVMConfig]
    loads: on a store that reports no failure, with no record kept for
    the id, storing any bytes succeeds and loading the id then returns
    those bytes. *)
Theorem store_load_round_trip (id : string) (b : bytes) (w : World) :
  calm 4 w ->
  absent w id ->
  fst (clone.storePersistedUVMConfig id b w) = nil
  /\ fst (clone.loadPersistedUVMConfig id
            (snd (clone.storePersistedUVMConfig id b w))) = (b, nil).
Proof.
  intros Hcalm Habs.
  assert (fst (clone.storePersistedUVMConfig id b w) = nil) as Hok.
  { apply wrapper_facts.store_calm; [|done].
    eapply world_facts.calm_le; [|exact Hcalm]. lia. }
  split; [exact Hok|].
  apply world_facts.store_ok_inv in Hok as [_ Hrec].
  rewrite world_facts.load_calm.
  - unfold persisted, stored. by rewrite Hrec, lookup_singleton_eq.
  - eapply (wrapper_facts.consumes_calm 2 2);
      [apply wrapper_facts.store_consumes|exact Hcalm].
Qed.

Lemma store_load_round_trip_witness :
  fst (clone.loadPersistedUVMConfig "vm-a"
         (snd (clone.storePersistedUVMConfig "vm-a" ["042"]%byte w0)))
  = (["042"]%byte, nil).
Proof.
  refine (proj2 (store_load_round_trip "vm-a" ["042"]%byte w0 _ _)).
  - apply world_facts.calm_nil.
  - reflexivity.
Defined.

(** X18. A corrupted record: when the blob persisted under the id does
    not decode, and the store reports no failure, [FetchTemplateConfig]
    returns no configuration and an error that wraps the decoder's error
    twice, once in [decodeTemplateConfig] and once in
    [FetchTemplateConfig]; the blob stays in the registry. *)
Theorem fetch_corrupt_record (id : string) (b : bytes)
  (partial : UVMTemplateConfig) (e : errval) (w : World) :
  calm 2 w ->
  persisted w id = Some b ->
  gob.Decode clone.gobRegistry b uvm.zero = (partial, Some e) ->
  fst (clone.FetchTemplateConfig id w)
  = (None, Some (errorString
                   ("failed to decode template config: "
                    ++ "error while decoding template config: " ++ Error e)))
  /\ persisted (snd (clone.FetchTemplateConfig id w)) id = Some b.
Proof.
  intros Hcalm Hb Hdec. split.
  - rewrite world_facts.Fetch_cases. cbv zeta.
    rewrite (world_facts.load_calm _ _ Hcalm), Hb. cbn [fst snd].
    rewrite world_facts.decode_cases, Hdec. reflexivity.
  - unfold persisted, stored in *. by rewrite world_facts.Fetch_registry.
Qed.

Lemma fetch_corrupt_record_witness :
  fst (clone.FetchTemplateConfig "vm-a"
         (snd (clone.storePersistedUVMConfig "vm-a" ["042"]%byte w0)))
  = (None, Some (errorString
                   "failed to decode template config: error while decoding template config: unexpected EOF")).
Proof.
  refine (proj1 (fetch_corrupt_record "vm-a" ["042"]%byte
                   uvm.zero gob.errUnexpectedEOF
                   (snd (clone.storePersistedUVMConfig "vm-a" ["042"]%byte w0))
                   _ _ _)).
  - vm_compute. constructor.
  - vm_compute. reflexivity.
  - vm_compute. reflexivity.
Defined.

End LifecycleExtras.

(* ===================================================================== *)
(** ** Further properties of the save-as-template workflow *)
(* ===================================================================== *)

Section WorkflowExtras.

Context {V : Type} (uvm : shim.UtilityVM V).

(** X14. No rollback: when the first four steps succeed and marking the
    machine as a template fails, [saveAsTemplate] returns the error of
    the marking, and the configuration that step 4 has saved stays in the
    registry. *)
Theorem mark_failure_keeps_record (host host1 host2 host3 host4 : V)
  (utc : UVMTemplateConfig) (e : errval) (w : World) :
  shim.RemoveAllNICs uvm host = (nil, host1) ->
  shim.CloseGCSConnection uvm host1 = (nil, host2) ->
  shim.GenerateTemplateConfig uvm host2 = (inl utc, host3) ->
  shim.SaveAsTemplate uvm host3 = (Some e, host4) ->
  calm 4 w -> valid_config utc -> absent w (UVMID utc) ->
  fst (shim.saveAsTemplate uvm host w) = (Some e, host4)
  /\ persisted (snd (shim.saveAsTemplate uvm host w)) (UVMID utc)
     = Some (gob.put_config utc).
Proof.
  intros H1 H2 H3 H5 Hcalm Hvalid Habs.
  unfold shim.saveAsTemplate, shim.host_call, bind, ret, emit.
  rewrite H1. cbn [fst snd registry faults trace]. rewrite H2.
  cbn [fst snd registry faults trace]. rewrite H3.
  cbn [fst snd registry faults trace shim.err_of].
  match goal with
  | |- context [clone.SaveTemplateConfig utc ?wx] => set (w3 := wx)
  end.
  assert (fst (clone.SaveTemplateConfig utc w3) = nil) as Hok.
  { apply wrapper_facts.Save_calm_iff; [exact Hcalm|by split]. }
  pose proof (world_facts.Save_ok_inv utc w3 Hok) as (_ & _ & Hrec).
  destruct (clone.SaveTemplateConfig utc w3) as [[e4|] w4]; [done|].
  rewrite H5. cbn [fst snd registry] in *.
  split; [reflexivity|].
  unfold persisted, stored. cbn [fst snd registry].
  by rewrite Hrec, lookup_singleton_eq.
Qed.

(** X15. A record that is already kept for the id of the generated
    configuration blocks the workflow at step 4: [saveAsTemplate] returns
    an error, the machine is left in the state that generating the
    configuration produced, no call of step 5 is recorded, and the record
    is unchanged. *)
Theorem existing_record_blocks_workflow (host host1 host2 host3 : V)
  (utc : UVMTemplateConfig) (rec : gmap string bytes) (w : World) :
  shim.RemoveAllNICs uvm host = (nil, host1) ->
  shim.CloseGCSConnection uvm host1 = (nil, host2) ->
  shim.GenerateTemplateConfig uvm host2 = (inl utc, host3) ->
  record_of (registry w) clone.configRoot (UVMID utc) = Some rec ->
  (exists e, fst (shim.saveAsTemplate uvm host w) = (Some e, host3))
  /\ record_of (registry (snd (shim.saveAsTemplate uvm host w)))
       clone.configRoot (UVMID utc) = Some rec
  /\ adds (Forall (fun ev => step_of_event ev <> 5)) w
       (snd (shim.saveAsTemplate uvm host w)).
Proof.
  intros H1 H2 H3 Hrec.
  unfold shim.saveAsTemplate, shim.host_call, bind, ret, emit.
  rewrite H1. cbn [fst snd registry faults trace]. rewrite H2.
  cbn [fst snd registry faults trace]. rewrite H3.
  cbn [fst snd registry faults trace shim.err_of].
  match goal with
  | |- context [clone.SaveTemplateConfig utc ?wx] => set (w3 := wx)
  end.
  pose proof (world_facts.Save_rejects_existing utc w3 rec Hrec) as Hfail.
  pose proof (world_facts.Save_preserves_record utc w3 _ rec Hrec) as Hkeep.
  destruct (world_facts.Save_trace_steps utc w3) as (evs & Htr & Hsteps).
  destruct (clone.SaveTemplateConfig utc w3) as [[e4|] w4]; [|done].
  cbn [fst snd] in *. split; [by exists e4|]. split; [exact Hkeep|].
  exists ([EvRemoveAllNICs nil; EvCloseGCSConnection nil;
           EvGenerateTemplateConfig nil] ++ evs).
  split.
  - rewrite Htr. unfold w3. cbn [trace].
    by rewrite <- !List.app_assoc.
  - apply Forall_app. split; [by repeat constructor|].
    eapply Forall_impl; [exact Hsteps|]. cbn. intros ev ->. lia.
Qed.

(** X16. Success means that everything has been done: if
    [saveAsTemplate] returns no error, then the four methods of the
    machine have each been called in turn and have succeeded, the
    machine is in the state that the marking produced, the generated
    configuration is valid, no record was kept for its id before, and its
    encoding is now persisted under its id. *)
Theorem workflow_success_inv (host : V) (w : World) :
  fst (fst (shim.saveAsTemplate uvm host w)) = nil ->
  exists (host1 host2 host3 host4 : V) (utc : UVMTemplateConfig),
    shim.RemoveAllNICs uvm host = (nil, host1)
    /\ shim.CloseGCSConnection uvm host1 = (nil, host2)
    /\ shim.GenerateTemplateConfig uvm host2 = (inl utc, host3)
    /\ shim.SaveAsTemplate uvm host3 = (nil, host4)
    /\ snd (fst (shim.saveAsTemplate uvm host w)) = host4
    /\ valid_config utc
    /\ absent w (UVMID utc)
    /\ persisted (snd (shim.saveAsTemplate uvm host w)) (UVMID utc)
       = Some (gob.put_config utc).
Proof.
  unfold shim.saveAsTemplate, shim.host_call, bind, ret, emit.
  destruct (shim.RemoveAllNICs uvm host) as [[e1|] host1] eqn:H1;
    cbn [fst snd registry faults trace]; [done|].
  destruct (shim.CloseGCSConnection uvm host1) as [[e2|] host2] eqn:H2;
    cbn [fst snd registry faults trace]; [done|].
  destruct (shim.GenerateTemplateConfig uvm host2) as [[utc|e3] host3] eqn:H3;
    cbn [fst snd registry faults trace shim.err_of]; [|done].
  match goal with
  | |- context [clone.SaveTemplateConfig utc ?wx] => set (w3 := wx)
  end.
  pose proof (world_facts.Save_ok_inv utc w3) as Hinv.
  destruct (clone.SaveTemplateConfig utc w3) as [[e4|] w4]; cbn [fst snd] in *;
    [done|].
  destruct (Hinv eq_refl) as (Habs & Hvalid & Hrec).
  destruct (shim.SaveAsTemplate uvm host3) as [[e5|] host4] eqn:H5;
    cbn [fst snd registry]; [done|].
  intros _. exists host1, host2, host3, host4, utc.
  split; [reflexivity|]. split; [exact H2|]. split; [exact H3|].
  split; [exact H5|]. split; [reflexivity|]. split; [exact Hvalid|].
  split; [exact Habs|].
  unfold persisted, stored. cbn [registry].
  by rewrite Hrec, lookup_singleton_eq.
Qed.

(** X17. The workflow follows the handle protocol of the store too, on
    every path: whatever the machine and the store report, every handle
    opened during [saveAsTemplate] has been closed when it returns. *)
Theorem workflow_releases_handles (host : V) (w : World) :
  adds handles_released w (snd (shim.saveAsTemplate uvm host w)).
Proof.
  unfold adds, handles_released.
  unfold shim.saveAsTemplate, shim.host_call, bind, ret, emit.
  destruct (shim.RemoveAllNICs uvm host) as [[e1|] host1];
    cbn [snd registry faults trace]; [by eexists|].
  destruct (shim.CloseGCSConnection uvm host1) as [[e2|] host2];
    cbn [snd registry faults trace];
    [rewrite <- List.app_assoc; by eexists|].
  destruct (shim.GenerateTemplateConfig uvm host2) as [[utc|e3] host3];
    cbn [snd registry faults trace shim.err_of];
    [|rewrite <- !List.app_assoc; by eexists].
  match goal with
  | |- context [clone.SaveTemplateConfig utc ?w3] =>
      destruct (wrapper_facts.Save_handles utc w3) as (evs4 & Ht4 & Hh4);
      destruct (clone.SaveTemplateConfig utc w3) as [[e4|] w4]
  end; cbn [snd registry faults trace] in *.
  - rewrite Ht4, <- !List.app_assoc. eexists. split; [reflexivity|].
    exact Hh4.
  - destruct (shim.SaveAsTemplate uvm host3) as [e5 host5].
    assert (exists evs, trace w4 ++ [EvSaveAsTemplate e5] = trace w ++ evs
              /\ handle_run false evs = Some false) as Hall.
    { rewrite Ht4, <- !List.app_assoc. eexists. split; [reflexivity|].
      cbn [app handle_run].
      unfold handles_released in Hh4.
      by rewrite wrapper_facts.handle_run_app, Hh4. }
    by destruct e5.
Qed.

End WorkflowExtras.

Lemma mark_failure_keeps_record_witness :
  fst (shim.saveAsTemplate WorkflowExamples.failsToMark 0 Examples.w0)
  = (Some (errorString "hcs: save failed"), 4)
  /\ persisted (snd (shim.saveAsTemplate WorkflowExamples.failsToMark 0
                       Examples.w0)) "vm-a"
     = Some (gob.put_config Examples.cfgA).
Proof.
  refine (mark_failure_keeps_record WorkflowExamples.failsToMark 0 1 2 3 4
            Examples.cfgA (errorString "hcs: save failed") Examples.w0
            _ _ _ _ _ _ _).
  all: first [ reflexivity
             | apply world_facts.calm_nil
             | unfold valid_config; by apply (bool_decide_unpack (Forall _ _)) ].
Defined.

Lemma existing_record_blocks_workflow_witness :
  exists e,
    fst (shim.saveAsTemplate Examples.healthyVM 0
           (snd (clone.SaveTemplateConfig Examples.cfgA Examples.w0)))
    = (Some e, 3).
Proof.
  refine (proj1 (existing_record_blocks_workflow Examples.healthyVM 0 1 2 3
                   Examples.cfgA {[clone.configKey := gob.put_config Examples.cfgA]}
                   (snd (clone.SaveTemplateConfig Examples.cfgA Examples.w0))
                   _ _ _ _)).
  all: vm_compute; reflexivity.
Defined.

Lemma workflow_success_inv_witness :
  exists (host1 host2 host3 host4 : nat) (utc : UVMTemplateConfig),
    shim.RemoveAllNICs Examples.healthyVM 0 = (nil, host1)
    /\ shim.CloseGCSConnection Examples.healthyVM host1 = (nil, host2)
    /\ shim.GenerateTemplateConfig Examples.healthyVM host2 = (inl utc, host3)
    /\ shim.SaveAsTemplate Examples.healthyVM host3 = (nil, host4)
    /\ snd (fst (shim.saveAsTemplate Examples.healthyVM 0 Examples.w0)) = host4
    /\ valid_config utc
    /\ absent Examples.w0 (UVMID utc)
    /\ persisted (snd (shim.saveAsTemplate Examples.healthyVM 0 Examples.w0))
         (UVMID utc)
       = Some (gob.put_config utc).
Proof.
  refine (workflow_success_inv Examples.healthyVM 0 Examples.w0 _).
  vm_compute. reflexivity.
Defined.
